(** * gptease: the tool-calling bridge and the completion loop

    A shallow embedding of [tools.go] (schema derivation by reflection,
    [MakeTool] and its [Handler] closure) and of the chat part of the
    package ([Talk], [Exchange] and the Dialogue operations), followed by
    the properties of the specification that concern them.

    Conventions of the embedding:
    - a Go [string] is a [string]; a slice is a [list]; a Go map is a
      [gmap] (the nil map and the empty map are both [∅]);
    - a computation that may panic returns an [outcome];
    - the receiver [c *Chat] and the process-wide variables are threaded
      explicitly (a [Chat] and a [World] go in, and come out);
    - the unbounded [for] loop of [Talk] takes a fuel argument; running out
      of fuel is [None], which is neither a return nor a panic. *)

From Stdlib Require Import ZArith NArith Ascii String List Lia DecimalString.
From stdpp Require Import base option list strings gmap.

Set Warnings "-register-all".

Local Open Scope string_scope.
Local Open Scope list_scope.

(* ===================================================================== *)
(** ** The pieces of package [strings] that the code calls *)
(* ===================================================================== *)

Module strings.

Fixpoint HasPrefix (s prefix : string) : bool :=
  match prefix with
  | EmptyString => true
  | String p prefix' =>
      match s with
      | EmptyString => false
      | String c s' => Ascii.eqb c p && HasPrefix s' prefix'
      end
  end.

(** [strings.Contains(s, substr)]. *)
Fixpoint Contains (s substr : string) : bool :=
  HasPrefix s substr ||
  match s with
  | EmptyString => false
  | String _ s' => Contains s' substr
  end.

(** [strings.Split(s, sep)] for a separator of one byte (the code only
    splits on [","]). The result is never empty: a string without the
    separator is returned whole, the empty string included. *)
Fixpoint Split (s : string) (sep : ascii) : list string :=
  match s with
  | EmptyString => [EmptyString]
  | String c s' =>
      if Ascii.eqb c sep then EmptyString :: Split s' sep
      else match Split s' sep with
           | [] => [String c EmptyString]
           | h :: t => String c h :: t
           end
  end.

End strings.

Definition comma : ascii := ","%char.

(* ===================================================================== *)
(** ** Package [reflect]: kinds, struct tags and types *)
(* ===================================================================== *)

Module reflect.

(** [reflect.Kind], all of it. *)
Inductive Kind : Set :=
| Invalid | Bool
| Int | Int8 | Int16 | Int32 | Int64
| Uint | Uint8 | Uint16 | Uint32 | Uint64 | Uintptr
| Float32 | Float64 | Complex64 | Complex128
| Array | Chan | Func | Interface | Map | Pointer | Slice
| String | Struct | UnsafePointer.

(** A struct tag in its conventional form, a sequence of [key:"value"]
    pairs, already split. [Lookup] returns the first pair of that key. *)
Definition StructTag : Type := list (string * string).

Fixpoint Lookup (tag : StructTag) (key : string) : option string :=
  match tag with
  | [] => None
  | (k, v) :: tag' => if String.eqb k key then Some v else Lookup tag' key
  end.

Definition Get (tag : StructTag) (key : string) : string :=
  match Lookup tag key with
  | Some v => v
  | None => EmptyString
  end.

Record StructField (T : Type) : Type := mkStructField {
  Name : string;
  Type_ : T;
  Tag : StructTag
}.
Arguments mkStructField {T} _ _ _.
Arguments Name {T} _.
Arguments Type_ {T} _.
Arguments Tag {T} _.

(** A Go type as reflection shows it. An interface type is given by its
    method set: names with their signatures in Go syntax. Types are finite
    trees here: a Go type that refers to itself (a struct holding a slice
    of itself) has no representation, and [readSpec] below would not
    return on one. *)
Inductive rtype : Type :=
| TBool | TInt | TInt8 | TInt16 | TInt32 | TInt64
| TUint | TUint8 | TUint16 | TUint32 | TUint64 | TUintptr
| TFloat32 | TFloat64 | TComplex64 | TComplex128
| TString | TUnsafePointer
| TArray (len : nat) (elem : rtype)
| TChan (elem : rtype)
| TFunc (ins outs : list rtype) (variadic : bool)
| TInterface (methods : list (string * string))
| TMap (key elem : rtype)
| TPointer (elem : rtype)
| TSlice (elem : rtype)
| TStruct (fields : list (StructField rtype)).

Definition kind (t : rtype) : Kind :=
  match t with
  | TBool => Bool
  | TInt => Int | TInt8 => Int8 | TInt16 => Int16
  | TInt32 => Int32 | TInt64 => Int64
  | TUint => Uint | TUint8 => Uint8 | TUint16 => Uint16
  | TUint32 => Uint32 | TUint64 => Uint64 | TUintptr => Uintptr
  | TFloat32 => Float32 | TFloat64 => Float64
  | TComplex64 => Complex64 | TComplex128 => Complex128
  | TString => String | TUnsafePointer => UnsafePointer
  | TArray _ _ => Array
  | TChan _ => Chan
  | TFunc _ _ _ => Func
  | TInterface _ => Interface
  | TMap _ _ => Map
  | TPointer _ => Pointer
  | TSlice _ => Slice
  | TStruct _ => Struct
  end.

Definition Kind_eqb (a b : Kind) : bool :=
  match a, b with
  | Invalid, Invalid | Bool, Bool
  | Int, Int | Int8, Int8 | Int16, Int16 | Int32, Int32 | Int64, Int64
  | Uint, Uint | Uint8, Uint8 | Uint16, Uint16 | Uint32, Uint32
  | Uint64, Uint64 | Uintptr, Uintptr
  | Float32, Float32 | Float64, Float64
  | Complex64, Complex64 | Complex128, Complex128
  | Array, Array | Chan, Chan | Func, Func | Interface, Interface
  | Map, Map | Pointer, Pointer | Slice, Slice
  | String, String | Struct, Struct
  | UnsafePointer, UnsafePointer => true
  | _, _ => false
  end.

(** The method set of the predeclared interface [error]. *)
Definition errorMethod : string * string := ("Error", "func() string").

Definition method_eqb (a b : string * string) : bool :=
  String.eqb (fst a) (fst b) && String.eqb (snd a) (snd b).

(** [t.Implements(error)] for an interface type [t]: its method set has
    [Error() string]. *)
Definition ImplementsError (t : rtype) : bool :=
  match t with
  | TInterface methods => existsb (method_eqb errorMethod) methods
  | _ => false
  end.

(** [t.IsVariadic()]. The last parameter of a variadic function has a
    slice type: [func(xs ...T)] has the one parameter type [[]T]. *)
Definition IsVariadic (t : rtype) : bool :=
  match t with
  | TFunc _ _ variadic => variadic
  | _ => false
  end.

(** [xt.AssignableTo(elem)] for [xt] the slice type [[]elem]. A type of
    the model is a finite tree and has no name, so [[]elem] is never
    identical to [elem] and has no methods: it can be assigned to [elem]
    only when [elem] is the empty interface. *)
Definition sliceAssignableToElem (elem : rtype) : bool :=
  match elem with
  | TInterface [] => true
  | _ => false
  end.

End reflect.

(* ===================================================================== *)
(** ** Panics *)
(* ===================================================================== *)

(** Go errors as the package builds them: [errors.New] and [fmt.Errorf]
    without [%w] give a plain message; [fmt.Errorf] with [%w] keeps the
    wrapped error next to the formatted message. *)
Inductive error : Type :=
| errorString (s : string)
| wrapError (msg : string) (err : error).

Definition Error (e : error) : string :=
  match e with
  | errorString s => s
  | wrapError msg _ => msg
  end.

Definition Unwrap (e : error) : option error :=
  match e with
  | errorString _ => None
  | wrapError _ inner => Some inner
  end.

Fixpoint error_eqb (a b : error) : bool :=
  match a, b with
  | errorString s, errorString t => String.eqb s t
  | wrapError m e, wrapError n f => String.eqb m n && error_eqb e f
  | _, _ => false
  end.

(** [errors.Is]: walks the chain of wrapped errors. *)
Fixpoint errors_Is (e target : error) : bool :=
  error_eqb e target ||
  match e with
  | errorString _ => false
  | wrapError _ inner => errors_Is inner target
  end.

(** [fmt.Errorf("%w" ++ rest, e)]. *)
Definition Errorf_w (e : error) (rest : string) : error :=
  wrapError (Error e ++ rest) e.

(** The argument of [panic]: a string, or an error value (possibly nil);
    and the panic of [reflect.Value.Call] for an argument of type [xt]
    where the function takes a [targ], "reflect: cannot use xt as type
    targ in Call". *)
Inductive panicValue : Type :=
| panicString (s : string)
| panicError (e : option error)
| panicCannotUse (xt targ : reflect.rtype).

Inductive outcome (A : Type) : Type :=
| Return (a : A)
| Panic (v : panicValue).
Arguments Return {A} a.
Arguments Panic {A} v.

Definition obind {A B : Type} (m : outcome A) (k : A -> outcome B) : outcome B :=
  match m with
  | Return a => k a
  | Panic v => Panic v
  end.

Declare Scope outcome_scope.
Delimit Scope outcome_scope with outcome.
Notation "'let!' x ':=' m 'in' k" := (obind m (fun x => k))
  (at level 10, x name, m at level 100, k at level 200) : outcome_scope.
Local Open Scope outcome_scope.

Definition returns {A : Type} (m : outcome A) : Prop := exists a, m = Return a.


(* ===================================================================== *)
(** ** tools.go: the schema *)
(* ===================================================================== *)

Inductive fieldSpec : Type := mkFieldSpec {
  Type_ : string;
  Properties : gmap string fieldSpec;
  Items : option fieldSpec;
  Description : string;
  Required : list string;
  Enum : list string
}.

(** The zero value, which the named result [s] of [readSpec] starts as. *)
Definition zeroFieldSpec : fieldSpec :=
  mkFieldSpec "" ∅ None "" [] [].

Definition setType (s : fieldSpec) (t : string) : fieldSpec :=
  mkFieldSpec t (Properties s) (Items s) (Description s) (Required s) (Enum s).
Definition setProperties (s : fieldSpec) (p : gmap string fieldSpec) : fieldSpec :=
  mkFieldSpec (Type_ s) p (Items s) (Description s) (Required s) (Enum s).
Definition setItems (s : fieldSpec) (i : option fieldSpec) : fieldSpec :=
  mkFieldSpec (Type_ s) (Properties s) i (Description s) (Required s) (Enum s).
Definition setDescription (s : fieldSpec) (d : string) : fieldSpec :=
  mkFieldSpec (Type_ s) (Properties s) (Items s) d (Required s) (Enum s).
Definition setRequired (s : fieldSpec) (r : list string) : fieldSpec :=
  mkFieldSpec (Type_ s) (Properties s) (Items s) (Description s) r (Enum s).
Definition setEnum (s : fieldSpec) (e : list string) : fieldSpec :=
  mkFieldSpec (Type_ s) (Properties s) (Items s) (Description s) (Required s) e.

Definition parseTag (s : fieldSpec) (tag : reflect.StructTag) : fieldSpec :=
  let s := match reflect.Lookup tag "desc" with
           | Some d => setDescription s d
           | None => s
           end in
  match reflect.Lookup tag "enum" with
  | Some e => setEnum s (strings.Split e comma)
  | None => s
  end.

Definition unsupported {A : Type} : outcome A :=
  Panic (panicString "unsupported type").

(** [switch t.Kind()] is the match on the head of the type (see
    [reflect.kind]); the [for] loop over the fields is the inner [fix],
    which carries the named result [s]. *)
Fixpoint readSpec (t : reflect.rtype) : outcome fieldSpec :=
  match t with
  | reflect.TStruct fields =>
      (fix loop (fs : list (reflect.StructField reflect.rtype)) (s : fieldSpec)
         {struct fs} : outcome fieldSpec :=
         match fs with
         | [] => Return s
         | f :: rest =>
             let name := reflect.Name f in
             let jt := reflect.Get (reflect.Tag f) "json" in
             let '(name, s) :=
               if negb (String.eqb jt "") then
                 let name := hd EmptyString (strings.Split jt comma) in
                 if negb (strings.Contains jt "omitempty")
                 then (name, setRequired s (Required s ++ [name]))
                 else (name, s)
               else (name, s) in
             let! fs := readSpec (reflect.Type_ f) in
             let fs := parseTag fs (reflect.Tag f) in
             loop rest (setProperties s (<[name := fs]> (Properties s)))
         end) fields (setType zeroFieldSpec "object")
  | reflect.TSlice elem =>
      let! itemSpec := readSpec elem in
      Return (setItems (setType zeroFieldSpec "array") (Some itemSpec))
  | reflect.TString => Return (setType zeroFieldSpec "string")
  | reflect.TInt => Return (setType zeroFieldSpec "integer")
  | reflect.TFloat32 => Return (setType zeroFieldSpec "number")
  | reflect.TBool => Return (setType zeroFieldSpec "boolean")
  | _ => unsupported
  end.

(* ===================================================================== *)
(** ** Go values, function values and the JSON codec *)
(* ===================================================================== *)

(** The values that tool functions take and return. A float is kept as its
    IEEE 754 bit pattern; a struct as the values of its fields, in order. *)
Inductive Value : Type :=
| VBool (b : bool)
| VInt (z : Z)
| VUint (n : N)
| VFloat (bits : N)
| VString (s : string)
| VSlice (elems : list Value)
| VStruct (fields : list Value)
| VNil.

(** The [f any] that [MakeTool] receives: its dynamic type and, for a
    function of one argument and results [(ret, error)], what calling it
    does: [Call] is the function itself, applied to the value of its
    parameter. [Call] is not used for a value of any other shape. *)
Record any : Type := mkAny {
  TypeOf : reflect.rtype;
  Call : Value -> outcome (Value * option error)
}.

(** What a [Handler] gives back: [(output, err)], or a panic. *)
Definition handlerResult : Type := outcome (string * option error).

Record Tool : Type := mkTool {
  Tool_Name : string;
  Tool_Description : string;
  Tool_Parameters : string;
  Tool_Handler : string -> handlerResult
}.

Section Tools.

(** Package [encoding/json], which the code calls and does not define.
    [json_Unmarshal input t] decodes [input] into a fresh value of type
    [t]; [json_MarshalIndent t v] encodes a value of dynamic type [t],
    [json_MarshalIndent_fieldSpec] a schema. Both encoders return the
    bytes (as a string) together with the error, as in Go. *)
Variable json_Unmarshal : string -> reflect.rtype -> Value + error.
Variable json_MarshalIndent : reflect.rtype -> Value -> string * option error.
Variable json_MarshalIndent_fieldSpec : fieldSpec -> string * option error.

(** [reflect.ValueOf(f).Call([]reflect.Value{v.Elem()})], for a function
    whose one parameter has type [arg]. A function that is not variadic is
    entered with [v]. For a variadic function, [Call] takes each value it
    is given as one element of the variadic parameter: [arg] is [[]elem],
    and [Call] panics before the function is entered unless a [[]elem] can
    be assigned to an [elem]; if it can, the function is entered with a
    slice of one element, [v]. (A variadic function whose parameter is no
    slice is not a Go type; the last case is for it.) *)
Definition reflectCall (f : any) (arg : reflect.rtype) (v : Value)
  : outcome (Value * option error) :=
  if reflect.IsVariadic (TypeOf f) then
    match arg with
    | reflect.TSlice elem =>
        if reflect.sliceAssignableToElem elem then Call f (VSlice [v])
        else Panic (panicCannotUse arg elem)
    | _ => Call f v
    end
  else Call f v.

(** The closure that [MakeTool] returns as [Handler], for a function [f]
    of argument type [arg] and first result type [ret]. The named result
    [err] is nil from entry to exit: the [err] of the decoding [if] is
    local to that statement, and the encoder's error is bound to [jerr].
    The test before [panic(jerr)] reads [err]. *)
Definition Handler (f : any) (arg ret : reflect.rtype) (input : string)
  : handlerResult :=
  let err : option error := None in
  match json_Unmarshal input arg with
  | inr err => Return ("", Some err)
  | inl v =>
      let! results := reflectCall f arg v in
      match snd results with
      | Some e => Return ("", Some e)
      | None =>
          let '(b, jerr) := json_MarshalIndent ret (fst results) in
          match err with
          | Some _ => Panic (panicError jerr)
          | None => Return (b, None)
          end
      end
  end.

Definition MakeTool (f : any) (name desc : string) : outcome Tool :=
  match TypeOf f with
  | reflect.TFunc ins outs _ =>
      match ins with
      | [arg] =>
          match outs with
          | [ret; e] =>
              if negb (reflect.Kind_eqb (reflect.kind e) reflect.Interface)
              then Panic (panicString "second result is not an error")
              else if negb (reflect.ImplementsError e)
              then Panic (panicString "second result is not an error")
              else
                let! params := readSpec arg in
                let '(b, err) := json_MarshalIndent_fieldSpec params in
                match err with
                | Some _ => Panic (panicError err)
                | None =>
                    Return {| Tool_Name := name;
                              Tool_Description := desc;
                              Tool_Parameters := b;
                              Tool_Handler := Handler f arg ret |}
                end
          | _ => Panic (panicString "not a function of two results")
          end
      | _ => Panic (panicString "not a function of one argument")
      end
  | _ => Panic (panicString "not a function")
  end.

End Tools.

(* ===================================================================== *)
(** ** The go-openai types the package uses *)
(* ===================================================================== *)

Module openai.

Record FunctionCall : Type := mkFunctionCall {
  FunctionCall_Name : string;
  FunctionCall_Arguments : string
}.

Record ToolCall : Type := mkToolCall {
  ToolCall_ID : string;
  ToolCall_Type : string;
  ToolCall_Function : FunctionCall
}.

Record ChatCompletionMessage : Type := mkMessage {
  Role : string;
  Content : string;
  FunctionCall_ : option FunctionCall;
  ToolCalls : list ToolCall;
  ToolCallID : string
}.

Definition ChatMessageRoleSystem : string := "system".
Definition ChatMessageRoleUser : string := "user".
Definition ChatMessageRoleAssistant : string := "assistant".
Definition ChatMessageRoleTool : string := "tool".

Definition FinishReasonStop : string := "stop".
Definition FinishReasonLength : string := "length".
Definition FinishReasonFunctionCall : string := "function_call".
Definition FinishReasonToolCalls : string := "tool_calls".
Definition FinishReasonContentFilter : string := "content_filter".
Definition FinishReasonNull : string := "null".

Definition GPT4TurboPreview : string := "gpt-4-turbo-preview".

Record FunctionDefinition : Type := mkFunctionDefinition {
  FunctionDefinition_Name : string;
  FunctionDefinition_Description : string;
  FunctionDefinition_Parameters : string
}.

Record Tool : Type := mkTool {
  Tool_Type : string;
  Tool_Function : FunctionDefinition
}.

(** [float32] request parameters, passed through as bit patterns. *)
Record ChatCompletionRequest : Type := mkRequest {
  Model : string;
  Messages : list ChatCompletionMessage;
  Temperature : N;
  TopP : N;
  Tools : list Tool
}.

Record ChatCompletionChoice : Type := mkChoice {
  Message : ChatCompletionMessage;
  FinishReason : string
}.

Record ChatCompletionResponse : Type := mkResponse {
  Choices : list ChatCompletionChoice
}.

(** [*openai.Client], as [NewClient(apikey)] makes it. *)
Record Client : Type := NewClient { authToken : string }.

End openai.

Definition openaiTool (t : Tool) : openai.Tool :=
  {| openai.Tool_Type := "function";
     openai.Tool_Function :=
       {| openai.FunctionDefinition_Name := Tool_Name t;
          openai.FunctionDefinition_Description := Tool_Description t;
          openai.FunctionDefinition_Parameters := Tool_Parameters t |} |}.

(* ===================================================================== *)
(** ** The chat: Dialogue, Chat and the process-wide client *)
(* ===================================================================== *)

Definition DEFAULT_CHAT_MODEL : string := openai.GPT4TurboPreview.

Definition ErrContentFilter : error :=
  errorString "response omitted due to content filter".
Definition ErrNotFinished : error :=
  errorString "response generation not finished".
Definition ErrTokenLimit : error :=
  errorString "token limit reached".
Definition ErrUnexpectedResponse : error :=
  errorString "unexpected response from OpenAI API".

Definition Dialogue : Type := list openai.ChatCompletionMessage.

Record ChatTweaks : Type := mkChatTweaks {
  Tweaks_Temperature : N;
  Tweaks_TopP : N
}.

Record Chat : Type := mkChat {
  Chat_Dialogue : Dialogue;
  Chat_Model : string;
  Chat_Tweaks : ChatTweaks;
  Chat_Tools : list Tool;
  Chat_c : option openai.Client
}.

Definition setDialogue (c : Chat) (d : Dialogue) : Chat :=
  mkChat d (Chat_Model c) (Chat_Tweaks c) (Chat_Tools c) (Chat_c c).

(** What lies outside the [Chat]: the environment variable, the two
    package variables behind [DefaultClient], and the completion requests
    issued so far, oldest first. *)
Record World : Type := mkWorld {
  OPENAI_API_KEY : string;
  defaultClient : option openai.Client;
  defaultClientOnce : bool;
  requests : list openai.ChatCompletionRequest
}.

Definition SetDefaultClient (cl : option openai.Client) (w : World) : World :=
  mkWorld (OPENAI_API_KEY w) cl (defaultClientOnce w) (requests w).

(** [sync.Once] runs the body on the first call only; the named result
    [err] is set inside the body, so a later call returns whatever
    [defaultClient] holds together with a nil error. *)
Definition DefaultClient (w : World)
  : option openai.Client * option error * World :=
  if defaultClientOnce w then (defaultClient w, None, w)
  else
    let apikey := OPENAI_API_KEY w in
    if String.eqb apikey ""
    then (defaultClient w,
          Some (errorString "OPENAI_API_KEY environment variable not set"),
          mkWorld (OPENAI_API_KEY w) (defaultClient w) true (requests w))
    else (Some (openai.NewClient apikey), None,
          mkWorld (OPENAI_API_KEY w) (Some (openai.NewClient apikey)) true
                  (requests w)).

Definition client (c : Chat) (w : World)
  : option openai.Client * option error * World :=
  match Chat_c c with
  | Some cl => (Some cl, None, w)
  | None => DefaultClient w
  end.

Definition model (c : Chat) : string :=
  if String.eqb (Chat_Model c) "" then DEFAULT_CHAT_MODEL else Chat_Model c.

Definition say (role msg : string) : openai.ChatCompletionMessage :=
  {| openai.Role := role; openai.Content := msg;
     openai.FunctionCall_ := None; openai.ToolCalls := [];
     openai.ToolCallID := "" |}.

Definition AssistantSaid (c : Chat) (msg : string) : Chat :=
  setDialogue c (Chat_Dialogue c ++ [say openai.ChatMessageRoleAssistant msg]).

Definition UserSaid (c : Chat) (msg : string) : Chat :=
  setDialogue c (Chat_Dialogue c ++ [say openai.ChatMessageRoleUser msg]).

Definition ExampleExchange (c : Chat) (input response : string) : Chat :=
  AssistantSaid (UserSaid c input) response.

Definition Instruction (c : Chat) (txt : string) : Chat :=
  setDialogue c (Chat_Dialogue c ++ [say openai.ChatMessageRoleSystem txt]).

(* ===================================================================== *)
(** ** The completion loop *)
(* ===================================================================== *)

(** What [Talk] and [Exchange] give back: [(response, err)], or a panic. *)
Definition talkResult : Type := outcome (string * option error).

Section Completion.

(** The remote completion API, which the package consumes and does not
    define: any function of the client the call goes through (nil when
    the package holds none), of the requests issued before and of the
    request itself. It answers with a response or an error, or panics. *)
Variable CreateChatCompletion :
  option openai.Client -> list openai.ChatCompletionRequest ->
  openai.ChatCompletionRequest ->
  outcome (openai.ChatCompletionResponse + error).

(** The inner [for _, t := range c.Tools] with its [break]: the first
    tool of that name handles the call; [None] is [found == false]. *)
Fixpoint findTool (tools : list Tool) (call : openai.ToolCall)
  : option handlerResult :=
  match tools with
  | [] => None
  | t :: rest =>
      if String.eqb (Tool_Name t)
           (openai.FunctionCall_Name (openai.ToolCall_Function call))
      then Some (Tool_Handler t
                   (openai.FunctionCall_Arguments (openai.ToolCall_Function call)))
      else findTool rest call
  end.

(** The body of [for _, call := range calls], up to the message that it
    appends. *)
Definition toolMessage (tools : list Tool) (call : openai.ToolCall)
  : outcome openai.ChatCompletionMessage :=
  let! r :=
    if negb (String.eqb (openai.ToolCall_Type call) "function")
    then Return ("", Some (errorString ("error: unknown tool call type "
                                        ++ openai.ToolCall_Type call)))
    else match findTool tools call with
         | Some h => h
         | None =>
             Return ("", Some (errorString
               ("error: no tool found with name "
                ++ openai.FunctionCall_Name (openai.ToolCall_Function call))))
         end in
  let '(out, toolErr) := r in
  let content := match toolErr with
                 | Some e => Error e
                 | None => out
                 end in
  Return {| openai.Role := openai.ChatMessageRoleTool;
            openai.Content := content;
            openai.FunctionCall_ := None;
            openai.ToolCalls := [];
            openai.ToolCallID := openai.ToolCall_ID call |}.

(** The loop over the calls. A panicking handler stops it; the messages
    appended before stay in the Dialogue. *)
Fixpoint dispatch (tools : list Tool) (calls : list openai.ToolCall)
  (d : Dialogue) : outcome unit * Dialogue :=
  match calls with
  | [] => (Return tt, d)
  | call :: rest =>
      match toolMessage tools call with
      | Panic v => (Panic v, d)
      | Return m => dispatch tools rest (d ++ [m])
      end
  end.

Definition request (tools : list openai.Tool) (c : Chat)
  : openai.ChatCompletionRequest :=
  {| openai.Model := model c;
     openai.Messages := Chat_Dialogue c;
     openai.Temperature := Tweaks_Temperature (Chat_Tweaks c);
     openai.TopP := Tweaks_TopP (Chat_Tweaks c);
     openai.Tools := tools |}.

Definition record (w : World) (req : openai.ChatCompletionRequest) : World :=
  mkWorld (OPENAI_API_KEY w) (defaultClient w) (defaultClientOnce w)
          (requests w ++ [req]).

(** The [for] loop of [Talk]; [tools] is the slice built before it. *)
Fixpoint Talk_loop (fuel : nat) (tools : list openai.Tool) (c : Chat) (w : World)
  : option (talkResult * Chat * World) :=
  match fuel with
  | O => None
  | S fuel =>
      let '(cl, err, w) := client c w in
      match err with
      | Some err => Some (Return ("", Some err), c, w)
      | None =>
          let req := request tools c in
          let w' := record w req in
          match CreateChatCompletion cl (requests w) req with
          | Panic v => Some (Panic v, c, w')
          | Return (inr err) => Some (Return ("", Some err), c, w')
          | Return (inl resp) =>
              match openai.Choices resp with
              | [] =>
                  Some (Return ("", Some (Errorf_w ErrUnexpectedResponse
                                  ": OpenAI API returned no choices")), c, w')
              | choice0 :: _ =>
                  let reason := openai.FinishReason choice0 in
                  if String.eqb reason openai.FinishReasonFunctionCall then
                    Some (Return ("", Some (Errorf_w ErrUnexpectedResponse
                            ": deprecated function call returned by API")), c, w')
                  else if String.eqb reason openai.FinishReasonToolCalls then
                    let calls := openai.ToolCalls (openai.Message choice0) in
                    match calls with
                    | [] =>
                        Some (Return ("", Some (Errorf_w ErrUnexpectedResponse
                                ": no calls provided")), c, w')
                    | _ :: _ =>
                        let d := Chat_Dialogue c ++ [openai.Message choice0] in
                        match dispatch (Chat_Tools c) calls d with
                        | (Panic v, d) => Some (Panic v, setDialogue c d, w')
                        | (Return _, d) =>
                            Talk_loop fuel tools (setDialogue c d) w'
                        end
                    end
                  else if String.eqb reason openai.FinishReasonContentFilter then
                    Some (Return ("", Some ErrContentFilter), c, w')
                  else if String.eqb reason openai.FinishReasonNull then
                    Some (Return ("", Some ErrNotFinished), c, w')
                  else
                    let response := openai.Content (openai.Message choice0) in
                    Some (Return (response, None),
                          setDialogue c (Chat_Dialogue c ++ [openai.Message choice0]),
                          w')
              end
          end
      end
  end.

Definition Talk (fuel : nat) (c : Chat) (w : World)
  : option (talkResult * Chat * World) :=
  Talk_loop fuel (map openaiTool (Chat_Tools c)) c w.

Definition Exchange (fuel : nat) (c : Chat) (content : string) (w : World)
  : option (talkResult * Chat * World) :=
  if String.eqb content "" then
    Some (Return ("", Some (errorString "empty content")), c, w)
  else
    let dlen := length (Chat_Dialogue c) in
    let c := UserSaid c content in
    match Talk fuel c w with
    | None => None
    | Some (Panic v, c, w) => Some (Panic v, c, w)
    | Some (Return (resp, Some err), c, w) =>
        Some (Return ("", Some err),
              setDialogue c (take dlen (Chat_Dialogue c)), w)
    | Some (Return (resp, None), c, w) => Some (Return (resp, None), c, w)
    end.

(** [MustExchange]: an error becomes a panic. *)
Definition MustExchange (fuel : nat) (c : Chat) (content : string) (w : World)
  : option (outcome string * Chat * World) :=
  match Exchange fuel c content w with
  | None => None
  | Some (Panic v, c, w) => Some (Panic v, c, w)
  | Some (Return (resp, Some err), c, w) =>
      Some (Panic (panicString ("Chat error: " ++ Error err ++ String "010" "")), c, w)
  | Some (Return (resp, None), c, w) => Some (Return resp, c, w)
  end.

End Completion.

(* ===================================================================== *)
(** ** Auxiliary definitions for the proofs *)
(* ===================================================================== *)

(** The loop of the [reflect.Struct] case, named so that it can be
    reasoned about on its own; [readSpec_struct] ties it to [readSpec]. *)
Definition readFields
  : list (reflect.StructField reflect.rtype) -> fieldSpec -> outcome fieldSpec :=
  fix loop fs s {struct fs} :=
    match fs with
    | [] => Return s
    | f :: rest =>
        let name := reflect.Name f in
        let jt := reflect.Get (reflect.Tag f) "json" in
        let '(name, s) :=
          if negb (String.eqb jt "") then
            let name := hd EmptyString (strings.Split jt comma) in
            if negb (strings.Contains jt "omitempty")
            then (name, setRequired s (Required s ++ [name]))
            else (name, s)
          else (name, s) in
        let! fs := readSpec (reflect.Type_ f) in
        let fs := parseTag fs (reflect.Tag f) in
        loop rest (setProperties s (<[name := fs]> (Properties s)))
    end.

(** The [json] tag of a field, and whether the code takes the field as
    marked "omit if empty": the text [omitempty] occurs in the tag. *)
Definition jsonTag (f : reflect.StructField reflect.rtype) : string :=
  reflect.Get (reflect.Tag f) "json".

Definition omitempty (f : reflect.StructField reflect.rtype) : bool :=
  strings.Contains (jsonTag f) "omitempty".

(** The name under which the loop enters a field: that of its [json] tag
    when it has one, else its own. *)
Definition fieldName (f : reflect.StructField reflect.rtype) : string :=
  if String.eqb (jsonTag f) "" then reflect.Name f
  else hd EmptyString (strings.Split (jsonTag f) comma).

(** Whether the loop appends the field's name to [Required]. *)
Definition fieldRequired (f : reflect.StructField reflect.rtype) : bool :=
  negb (String.eqb (jsonTag f) "") && negb (omitempty f).

(** The fields that add to [Required], with the names they add. *)
Definition requiredNames (fs : list (reflect.StructField reflect.rtype))
  : list string :=
  map fieldName (filter (fun f => fieldRequired f = true) fs).

(** The kinds for which the [switch] of [readSpec] has a case. *)
Definition hasCase (k : reflect.Kind) : bool :=
  match k with
  | reflect.Struct | reflect.Slice | reflect.String
  | reflect.Int | reflect.Float32 | reflect.Bool => true
  | _ => false
  end.

(** The predeclared type [error]. *)
Definition errorType : reflect.rtype :=
  reflect.TInterface [reflect.errorMethod].

(** A function type that passes the checks at the head of [MakeTool]. *)
Definition toolSignature (t arg ret : reflect.rtype) : Prop :=
  exists e variadic,
    t = reflect.TFunc [arg] [ret; e] variadic
    /\ reflect.kind e = reflect.Interface
    /\ reflect.ImplementsError e = true.

(** The message that the dispatch loop appends for a call. *)
Definition toolSaid (content : string) (call : openai.ToolCall)
  : openai.ChatCompletionMessage :=
  {| openai.Role := openai.ChatMessageRoleTool;
     openai.Content := content;
     openai.FunctionCall_ := None;
     openai.ToolCalls := [];
     openai.ToolCallID := openai.ToolCall_ID call |}.

(** No tool of the list has the name that the call asks for. *)
Definition unregistered (tools : list Tool) (call : openai.ToolCall) : Prop :=
  Forall (fun t => Tool_Name t
                   <> openai.FunctionCall_Name (openai.ToolCall_Function call))
         tools.

(* ===================================================================== *)
(** ** Fixtures: the types and functions of the package's test and of its
       example program, a codec for a fragment of JSON, a scripted API *)
(* ===================================================================== *)

Definition emptyStruct : reflect.rtype := reflect.TStruct [].

(** [struct{ MaxValue int }] of the example program. *)
Definition rollDieArgs : reflect.rtype :=
  reflect.TStruct [reflect.mkStructField "MaxValue" reflect.TInt []].

Definition args1 : reflect.rtype :=
  reflect.TStruct
    [reflect.mkStructField "Foo" reflect.TString [("json", "foo")];
     reflect.mkStructField "Bar" reflect.TInt [("json", "bar,omitempty")]].

Definition args2 : reflect.rtype :=
  reflect.TStruct
    [reflect.mkStructField "List" (reflect.TSlice reflect.TString) [("json", "list")];
     reflect.mkStructField "Nested"
       (reflect.TStruct
          [reflect.mkStructField "Qux" reflect.TString
             [("json", "qux"); ("enum", "foo,baar,baaaz"); ("desc", "extra string")]])
       [("json", "nested,omitempty")]].

(** Decoding for two argument types: [int] from unsigned decimal digits
    and [struct{}] from an empty object. Everything else is an error. *)
Definition demoUnmarshal (input : string) (t : reflect.rtype) : Value + error :=
  match t with
  | reflect.TInt =>
      match NilZero.uint_of_string input with
      | Some u => inl (VInt (Z.of_N (N.of_uint u)))
      | None => inr (errorString "invalid character looking for beginning of value")
      end
  | reflect.TStruct [] =>
      if String.eqb input "{}" then inl (VStruct [])
      else inr (errorString "unexpected end of JSON input")
  | _ => inr (errorString "json: cannot unmarshal")
  end.

(** A binary32 bit pattern whose exponent is all ones: NaN or infinity. *)
Definition nonFinite (bits : N) : bool :=
  N.eqb (N.land (N.shiftr bits 23) 255) 255.

Definition NaN : N := 2143289344.

(** Encoding: integers in decimal, the empty struct, and the encoder's
    refusal of a float that is not finite, which returns no bytes. *)
Definition demoMarshalIndent (t : reflect.rtype) (v : Value)
  : string * option error :=
  match v with
  | VInt z => (NilZero.string_of_int (Z.to_int z), None)
  | VStruct [] => ("{}", None)
  | VFloat bits =>
      if nonFinite bits
      then ("", Some (errorString "json: unsupported value: NaN"))
      else ("0", None)
  | _ => ("null", None)
  end.

(** A schema printer that shows the [type] entry only. *)
Definition demoMarshalSchema (s : fieldSpec) : string * option error :=
  (("{ type: " ++ Type_ s ++ " }")%string, None).

Definition demoMakeTool : any -> string -> string -> outcome Tool :=
  MakeTool demoUnmarshal demoMarshalIndent demoMarshalSchema.

(** The functions of [TestGenerateTool]. *)
Definition trivial : any :=
  {| TypeOf := reflect.TFunc [emptyStruct] [emptyStruct; errorType] false;
     Call := fun _ => Return (VStruct [], None) |}.

Definition trivialError : any :=
  {| TypeOf := reflect.TFunc [emptyStruct] [emptyStruct; errorType] false;
     Call := fun _ => Return (VStruct [], Some (errorString "trivial error")) |}.

Definition primitive : any :=
  {| TypeOf := reflect.TFunc [reflect.TInt] [reflect.TInt; errorType] false;
     Call := fun i => Return (i, None) |}.

(** [func(struct{}) (float32, error)] returning NaN and a nil error. *)
Definition notANumber : any :=
  {| TypeOf := reflect.TFunc [emptyStruct] [reflect.TFloat32; errorType] false;
     Call := fun _ => Return (VFloat NaN, None) |}.

(** [func(map[string]int) (int, error)]. *)
Definition countKeys : any :=
  {| TypeOf := reflect.TFunc [reflect.TMap reflect.TString reflect.TInt]
                 [reflect.TInt; errorType] false;
     Call := fun _ => Return (VInt 0, None) |}.

(** [func(float64) (float64, error)]. *)
Definition halve : any :=
  {| TypeOf := reflect.TFunc [reflect.TFloat64] [reflect.TFloat64; errorType] false;
     Call := fun x => Return (x, None) |}.

(** A remote API that answers the n-th request with the n-th entry of a
    script, and with a transport error once the script is over. *)
Definition scripted
  (script : list (outcome (openai.ChatCompletionResponse + error)))
  (cl : option openai.Client)
  (earlier : list openai.ChatCompletionRequest)
  (req : openai.ChatCompletionRequest)
  : outcome (openai.ChatCompletionResponse + error) :=
  default (Return (inr (errorString "EOF"))) (script !! length earlier).

Definition answer (reason : string) (msg : openai.ChatCompletionMessage)
  : outcome (openai.ChatCompletionResponse + error) :=
  Return (inl {| openai.Choices :=
                   [{| openai.Message := msg; openai.FinishReason := reason |}] |}).

Definition asksFor (calls : list openai.ToolCall) : openai.ChatCompletionMessage :=
  {| openai.Role := openai.ChatMessageRoleAssistant; openai.Content := "";
     openai.FunctionCall_ := None; openai.ToolCalls := calls;
     openai.ToolCallID := "" |}.

Definition callOf (id name args : string) : openai.ToolCall :=
  {| openai.ToolCall_ID := id; openai.ToolCall_Type := "function";
     openai.ToolCall_Function :=
       {| openai.FunctionCall_Name := name;
          openai.FunctionCall_Arguments := args |} |}.

Definition demoWorld : World :=
  {| OPENAI_API_KEY := "sk-demo"; defaultClient := None;
     defaultClientOnce := false; requests := [] |}.

Definition noTweaks : ChatTweaks := mkChatTweaks 0 0.

(** A chat holding one instruction and the given tools. *)
Definition demoChat (tools : list Tool) : Chat :=
  Instruction (mkChat [] "" noTweaks tools None) "You are GM of a role playing game.".

(** The request that [Talk] sends for a chat. *)
Definition sends (c : Chat) : openai.ChatCompletionRequest :=
  request (map openaiTool (Chat_Tools c)) c.

(** The model asks for [rollDie], which the chat does not have, and then
    answers. *)
Definition askThenAnswer
  : list (outcome (openai.ChatCompletionResponse + error)) :=
  [answer "tool_calls" (asksFor [callOf "call_1" "rollDie" "{}"]);
   answer "stop" (say "assistant" "You miss.")].

(** The model asks for [rollDie], and its next answer is filtered. *)
Definition askThenFiltered
  : list (outcome (openai.ChatCompletionResponse + error)) :=
  [answer "tool_calls" (asksFor [callOf "call_1" "rollDie" "{}"]);
   answer "content_filter" (say "assistant" "")].

(** The model asks for [notANumber], whose result cannot be encoded, and
    then answers. *)
Definition askForNaN
  : list (outcome (openai.ChatCompletionResponse + error)) :=
  [answer "tool_calls" (asksFor [callOf "call_1" "notANumber" "{}"]);
   answer "stop" (say "assistant" "done")].


(* ===================================================================== *)
(** ** embed.go: embeddings *)
(* ===================================================================== *)

(** The go-openai types of the embeddings endpoint. A [float32] is its bit
    pattern, as in the completion request; the embedding model is given by
    its name. *)
Module openaiEmbeddings.

Definition AdaEmbeddingV2 : string := "text-embedding-ada-002".

Record EmbeddingRequest : Type := mkEmbeddingRequest {
  Input : list string;
  Model : string
}.

Record Embedding : Type := mkEmbedding {
  Embedding_ : list N;
  Index : Z
}.

Record Usage : Type := mkUsage {
  PromptTokens : Z;
  CompletionTokens : Z;
  TotalTokens : Z
}.

Record EmbeddingResponse : Type := mkEmbeddingResponse {
  Data : list Embedding;
  Usage_ : Usage
}.

End openaiEmbeddings.

Definition Embedding : Type := list N.

Definition showNat (n : nat) : string := NilZero.string_of_uint (Nat.to_uint n).

(** The run-time panic of an index expression [a[i]] with [i >= len(a)]. *)
Definition indexOutOfRange {A : Type} (i len : nat) : outcome A :=
  Panic (panicString ("runtime error: index out of range [" ++ showNat i
                      ++ "] with length " ++ showNat len)).

Section Embeddings.

(** [sum + x*y] on [float32] bit patterns, as the machine computes it (in
    two roundings or fused into one): not defined by the package. *)
Variable mulAdd : N -> N -> N -> N.

(** [for i, x := range e { sum += x * other[i] }], from index [i] on. *)
Fixpoint Dot_loop (e : list N) (i : nat) (other : list N) (sum : N)
  : outcome N :=
  match e with
  | [] => Return sum
  | x :: e' =>
      match other !! i with
      | None => indexOutOfRange i (length other)
      | Some y => Dot_loop e' (S i) other (mulAdd sum x y)
      end
  end.

Definition Dot (e other : Embedding) : outcome N := Dot_loop e 0 other 0%N.

(** The embeddings endpoint, consumed like the completion endpoint. *)
Variable CreateEmbeddings :
  option openai.Client -> openaiEmbeddings.EmbeddingRequest ->
  outcome (openaiEmbeddings.EmbeddingResponse + error).

(** [Embed] returns [(v, tokenCount, err)]. *)
Definition Embed (text : string) (w : World)
  : outcome (Embedding * Z * option error) * World :=
  let '(cl, err, w) := DefaultClient w in
  match err with
  | Some err => (Return ([], 0%Z, Some err), w)
  | None =>
      match CreateEmbeddings cl
              {| openaiEmbeddings.Model := openaiEmbeddings.AdaEmbeddingV2;
                 openaiEmbeddings.Input := [text] |} with
      | Panic v => (Panic v, w)
      | Return (inr err) => (Return ([], 0%Z, Some err), w)
      | Return (inl resp) =>
          match openaiEmbeddings.Data resp with
          | [] => (indexOutOfRange 0 0, w)
          | d :: _ =>
              (Return (openaiEmbeddings.Embedding_ d,
                       openaiEmbeddings.PromptTokens (openaiEmbeddings.Usage_ resp),
                       None), w)
          end
      end
  end.

End Embeddings.

(* ===================================================================== *)
(** ** Further auxiliary definitions *)
(* ===================================================================== *)

(** The types on which the [switch] of [readSpec] never reaches its
    [default] case, however deep it descends. *)
Fixpoint supported (t : reflect.rtype) : bool :=
  match t with
  | reflect.TStruct fields => forallb (fun f => supported (reflect.Type_ f)) fields
  | reflect.TSlice elem => supported elem
  | reflect.TString | reflect.TInt | reflect.TFloat32 | reflect.TBool => true
  | _ => false
  end.

(** The [type] entry that each case of the [switch] writes. *)
Definition schemaType (k : reflect.Kind) : string :=
  match k with
  | reflect.Struct => "object"
  | reflect.Slice => "array"
  | reflect.String => "string"
  | reflect.Int => "integer"
  | reflect.Float32 => "number"
  | reflect.Bool => "boolean"
  | _ => ""
  end.

(** [strings.Join(elems, sep)] for a separator of one byte. *)
Fixpoint Join (elems : list string) (sep : ascii) : string :=
  match elems with
  | [] => EmptyString
  | [s] => s
  | s :: rest => s ++ String sep (Join rest sep)
  end.

(** Whether a byte occurs in a string. *)
Fixpoint hasByte (c : ascii) (s : string) : bool :=
  match s with
  | EmptyString => false
  | String d s' => Ascii.eqb d c || hasByte c s'
  end.

(** The errors that [Talk] makes itself. *)
Definition talkErrors : list error :=
  [Errorf_w ErrUnexpectedResponse ": OpenAI API returned no choices";
   Errorf_w ErrUnexpectedResponse ": deprecated function call returned by API";
   Errorf_w ErrUnexpectedResponse ": no calls provided";
   ErrContentFilter;
   ErrNotFinished].

(** The finish reasons that the [switch] of [Talk] has a case for. *)
Definition handledReason (reason : string) : bool :=
  String.eqb reason openai.FinishReasonFunctionCall
  || String.eqb reason openai.FinishReasonToolCalls
  || String.eqb reason openai.FinishReasonContentFilter
  || String.eqb reason openai.FinishReasonNull.

(** Two chats that differ in their Dialogue at most. *)
Definition sameSettings (c c' : Chat) : Prop :=
  Chat_Model c' = Chat_Model c /\ Chat_Tweaks c' = Chat_Tweaks c
  /\ Chat_Tools c' = Chat_Tools c /\ Chat_c c' = Chat_c c.

(** A request as [Talk] builds it for chat [c], at some later Dialogue
    that begins with the Dialogue [d0]. *)
Definition requestOf (c : Chat) (d0 : Dialogue)
  (req : openai.ChatCompletionRequest) : Prop :=
  openai.Model req = model c
  /\ openai.Temperature req = Tweaks_Temperature (Chat_Tweaks c)
  /\ openai.TopP req = Tweaks_TopP (Chat_Tweaks c)
  /\ openai.Tools req = map openaiTool (Chat_Tools c)
  /\ exists new, openai.Messages req = d0 ++ new.

(** Every handler of the list returns, on every input. *)
Definition handlersReturn (tools : list Tool) : Prop :=
  Forall (fun t => forall input, returns (Tool_Handler t input)) tools.

(** A remote API that answers every request by asking for tools. *)
Definition alwaysAsks
  (api : option openai.Client -> list openai.ChatCompletionRequest ->
         openai.ChatCompletionRequest ->
         outcome (openai.ChatCompletionResponse + error)) : Prop :=
  forall cl earlier req,
  exists resp choice others,
    api cl earlier req = Return (inl resp)
    /\ openai.Choices resp = choice :: others
    /\ openai.FinishReason choice = openai.FinishReasonToolCalls
    /\ openai.ToolCalls (openai.Message choice) <> [].

(* ===================================================================== *)
(** ** Further fixtures *)
(* ===================================================================== *)

(** [struct{ Tags []string; Meta map[string]int }]: the second field is of
    a kind without a case. *)
Definition taggedArgs : reflect.rtype :=
  reflect.TStruct
    [reflect.mkStructField "Tags" (reflect.TSlice reflect.TString) [("json", "tags")];
     reflect.mkStructField "Meta" (reflect.TMap reflect.TString reflect.TInt) []].

(** A tool that panics whenever it is called. *)
Definition faulty : Tool :=
  {| Tool_Name := "faulty"; Tool_Description := ""; Tool_Parameters := "";
     Tool_Handler := fun _ => Panic (panicString "boom") |}.

(** Two tools of one name. *)
Definition yes : Tool :=
  {| Tool_Name := "oracle"; Tool_Description := ""; Tool_Parameters := "";
     Tool_Handler := fun _ => Return ("yes", None) |}.

Definition no : Tool :=
  {| Tool_Name := "oracle"; Tool_Description := ""; Tool_Parameters := "";
     Tool_Handler := fun _ => Return ("no", None) |}.

(** A call of a type other than "function". *)
Definition retrievalCall : openai.ToolCall :=
  {| openai.ToolCall_ID := "call_9"; openai.ToolCall_Type := "retrieval";
     openai.ToolCall_Function :=
       {| openai.FunctionCall_Name := "faulty";
          openai.FunctionCall_Arguments := "{}" |} |}.

(** The model keeps asking for [rollDie], whatever it is sent. *)
Definition persistent
  (cl : option openai.Client)
  (earlier : list openai.ChatCompletionRequest)
  (req : openai.ChatCompletionRequest)
  : outcome (openai.ChatCompletionResponse + error) :=
  answer "tool_calls" (asksFor [callOf "call_1" "rollDie" "{}"]).


(** A world whose environment has no API key. *)
Definition bareWorld : World := mkWorld EmptyString None false [].

(** An embeddings endpoint that returns no data, and one that returns a
    vector of two components. *)
Definition noData
  (cl : option openai.Client) (req : openaiEmbeddings.EmbeddingRequest)
  : outcome (openaiEmbeddings.EmbeddingResponse + error) :=
  Return (inl {| openaiEmbeddings.Data := [];
                 openaiEmbeddings.Usage_ := openaiEmbeddings.mkUsage 3 0 3 |}).

(** A stand-in for the float operation, on small naturals. *)
Definition natMulAdd (sum x y : N) : N := (sum + x * y)%N.

(** A chat that was given its own client. *)
Definition ownChat : Chat :=
  mkChat [] "gpt-4" noTweaks [] (Some (openai.NewClient "sk-own")).

(** The model answers with a reason that the package has no case for. *)
Definition answerWithoutReason
  : list (outcome (openai.ChatCompletionResponse + error)) :=
  [answer "" (say "assistant" "Aye.")].

(** [func(xs ...string) (string, error)]: a variadic function, which
    passes the checks of [MakeTool]. *)
Definition joinAll : any :=
  {| TypeOf := reflect.TFunc [reflect.TSlice reflect.TString]
                 [reflect.TString; errorType] true;
     Call := fun _ => Return (VString EmptyString, None) |}.

(** The fixture decoder, extended to decode the empty array into a
    [[]string]. *)
Definition listUnmarshal (input : string) (t : reflect.rtype) : Value + error :=
  match t with
  | reflect.TSlice reflect.TString =>
      if String.eqb input "[]" then inl (VSlice [])
      else inr (errorString "json: cannot unmarshal")
  | _ => demoUnmarshal input t
  end.

(** The model asks for [joinAll] and for [rollDie] in one response, and
    would answer after. *)
Definition askForTwo
  : list (outcome (openai.ChatCompletionResponse + error)) :=
  [answer "tool_calls" (asksFor [callOf "call_1" "joinAll" "[]";
                                 callOf "call_2" "rollDie" "{}"]);
   answer "stop" (say "assistant" "done")].

(* ===================================================================== *)
(** ** Properties of schema derivation *)
(* ===================================================================== *)

Lemma readSpec_struct fields :
  readSpec (reflect.TStruct fields)
  = readFields fields (setType zeroFieldSpec "object").
Proof. reflexivity. Qed.

Lemma readFields_cons f rest s :
  readFields (f :: rest) s
  = let! fs := readSpec (reflect.Type_ f) in
    readFields rest
      (setProperties
         (if fieldRequired f
          then setRequired s (Required s ++ [fieldName f]) else s)
         (<[fieldName f := parseTag fs (reflect.Tag f)]>
            (Properties (if fieldRequired f
                         then setRequired s (Required s ++ [fieldName f])
                         else s)))).
Proof.
  unfold fieldRequired, fieldName, omitempty, jsonTag.
  change (readFields (f :: rest) s)
    with (let jt := reflect.Get (reflect.Tag f) "json" in
          let '(name, s0) :=
            if negb (String.eqb jt "") then
              let name := hd EmptyString (strings.Split jt comma) in
              if negb (strings.Contains jt "omitempty")
              then (name, setRequired s (Required s ++ [name]))
              else (name, s)
            else (reflect.Name f, s) in
          let! fs := readSpec (reflect.Type_ f) in
          readFields rest
            (setProperties s0
               (<[name := parseTag fs (reflect.Tag f)]> (Properties s0)))).
  cbv zeta.
  destruct (String.eqb (reflect.Get (reflect.Tag f) "json") ""); cbn [negb andb];
    [reflexivity|].
  destruct (strings.Contains (reflect.Get (reflect.Tag f) "json") "omitempty");
    reflexivity.
Qed.

Lemma readFields_Required fs :
  forall s s', readFields fs s = Return s' ->
               Required s' = Required s ++ requiredNames fs.
Proof.
  induction fs as [|f rest IH]; intros s s' Hrun.
  - cbn in Hrun. injection Hrun as <-. unfold requiredNames. cbn.
    symmetry. apply app_nil_r.
  - rewrite readFields_cons in Hrun.
    destruct (readSpec (reflect.Type_ f)) as [sub|v]; cbn in Hrun; [|discriminate].
    apply IH in Hrun. rewrite Hrun. unfold requiredNames.
    rewrite filter_cons.
    destruct (fieldRequired f) eqn:Hreq; cbn.
    + destruct (decide (true = true)) as [_|Hne]; [|congruence].
      cbn. rewrite <- app_assoc. reflexivity.
    + destruct (decide (false = true)) as [Habs|_]; [discriminate|].
      reflexivity.
Qed.

Lemma readFields_Type fs :
  forall s s', readFields fs s = Return s' -> Type_ s' = Type_ s.
Proof.
  induction fs as [|f rest IH]; intros s s' Hrun.
  - cbn in Hrun. congruence.
  - rewrite readFields_cons in Hrun.
    destruct (readSpec (reflect.Type_ f)) as [sub|v]; cbn in Hrun; [|discriminate].
    apply IH in Hrun. rewrite Hrun. destruct (fieldRequired f); reflexivity.
Qed.

Lemma fieldRequired_tag f :
  fieldRequired f = true <-> jsonTag f <> "" /\ omitempty f = false.
Proof.
  unfold fieldRequired.
  destruct (String.eqb_spec (jsonTag f) "") as [He|Hne]; cbn.
  - split; [discriminate | intros [Hne _]; contradiction].
  - rewrite negb_true_iff. split; [intros H; split; assumption | intros [_ H]; exact H].
Qed.

Lemma fieldName_tagged f :
  jsonTag f <> "" ->
  fieldName f = hd EmptyString (strings.Split (jsonTag f) comma).
Proof.
  intros Hne. unfold fieldName.
  destruct (String.eqb_spec (jsonTag f) ""); [contradiction|reflexivity].
Qed.

Lemma fieldName_untagged f :
  jsonTag f = "" -> fieldName f = reflect.Name f.
Proof. intros He. unfold fieldName. rewrite He. reflexivity. Qed.

Lemma readSpec_default t :
  hasCase (reflect.kind t) = false -> readSpec t = unsupported.
Proof. destruct t; cbn; intros H; try discriminate; reflexivity. Qed.

Example readSpec_args1_Required :
  exists s, readSpec args1 = Return s /\ Required s = ["foo"]
            /\ dom (Properties s) = ({["foo"; "bar"]} : gset string).
Proof.
  eexists. split; [reflexivity|]. split; [reflexivity|].
  cbn. rewrite !dom_insert_L, dom_empty_L. set_solver.
Qed.

Example readSpec_args2_nested :
  exists s n q,
    readSpec args2 = Return s /\ Required s = ["list"]
    /\ Properties s !! "nested" = Some n /\ Required n = ["qux"]
    /\ Properties n !! "qux" = Some q
    /\ Enum q = ["foo"; "baar"; "baaaz"] /\ Description q = "extra string".
Proof.
  eexists _, _, _. split; [reflexivity|]. split; [reflexivity|].
  split; [cbn; rewrite lookup_insert_eq; reflexivity|].
  split; [reflexivity|].
  split; [cbn; rewrite lookup_insert_eq; reflexivity|].
  split; reflexivity.
Qed.

Lemma requiredNames_elem fields name :
  name ∈ requiredNames fields <->
  exists f, f ∈ fields /\ jsonTag f <> "" /\ omitempty f = false
            /\ name = hd EmptyString (strings.Split (jsonTag f) comma).
Proof.
  unfold requiredNames. change (@map) with (@fmap list _).
  rewrite list_elem_of_fmap. split.
  - intros (f & -> & Hf). apply list_elem_of_filter in Hf as [Hreq Hin].
    apply fieldRequired_tag in Hreq as [Hne Hom].
    exists f. repeat split; try assumption. apply fieldName_tagged, Hne.
  - intros (f & Hin & Hne & Hom & ->). exists f. split.
    + symmetry. apply fieldName_tagged, Hne.
    + apply list_elem_of_filter. split; [|assumption].
      apply fieldRequired_tag. split; assumption.
Qed.




(** C5, amended. Of the primitive kinds, schema derivation maps [string]
    to "string", [int] to "integer", [float32] to "number" and [bool] to
    "boolean". The sized integers [int8] to [int64] and [float64] have no
    case: for them it panics with "unsupported type". *)
Theorem readSpec_primitive_kinds :
  readSpec reflect.TString = Return (setType zeroFieldSpec "string")
  /\ readSpec reflect.TInt = Return (setType zeroFieldSpec "integer")
  /\ readSpec reflect.TFloat32 = Return (setType zeroFieldSpec "number")
  /\ readSpec reflect.TBool = Return (setType zeroFieldSpec "boolean")
  /\ forall t,
       t ∈ [reflect.TInt8; reflect.TInt16; reflect.TInt32; reflect.TInt64;
            reflect.TFloat64] ->
       readSpec t = Panic (panicString "unsupported type").
Proof.
  do 4 (split; [reflexivity|]).
  intros t Ht. rewrite list_elem_of_In in Ht. cbn in Ht.
  repeat (destruct Ht as [<-|Ht]; [reflexivity|]). contradiction.
Qed.

(** C5 as stated fails at [int64] and at [float64]: no schema comes out. *)
Lemma readSpec_rejects_int64_and_float64 :
  ~ (exists s, readSpec reflect.TInt64 = Return s /\ Type_ s = "integer")
  /\ ~ (exists s, readSpec reflect.TFloat64 = Return s /\ Type_ s = "number").
Proof. split; intros (s & Hrun & _); discriminate Hrun. Qed.

(* ===================================================================== *)
(** ** Properties of [MakeTool] and of its [Handler] *)
(* ===================================================================== *)

Section ToolFacts.

Variable json_Unmarshal : string -> reflect.rtype -> Value + error.
Variable json_MarshalIndent : reflect.rtype -> Value -> string * option error.
Variable json_MarshalIndent_fieldSpec : fieldSpec -> string * option error.

(** With a well-formed signature, [MakeTool] is schema derivation, then
    schema printing, then the record. *)
Lemma MakeTool_signature f name desc arg ret :
  toolSignature (TypeOf f) arg ret ->
  MakeTool json_Unmarshal json_MarshalIndent json_MarshalIndent_fieldSpec
    f name desc
  = let! params := readSpec arg in
    match snd (json_MarshalIndent_fieldSpec params) with
    | Some e => Panic (panicError (Some e))
    | None =>
        Return {| Tool_Name := name; Tool_Description := desc;
                  Tool_Parameters := fst (json_MarshalIndent_fieldSpec params);
                  Tool_Handler := Handler json_Unmarshal json_MarshalIndent f arg ret |}
    end.
Proof.
  intros (e & variadic & Hty & Hkind & Himpl).
  unfold MakeTool. rewrite Hty, Hkind, Himpl. cbn.
  destruct (readSpec arg) as [params|v]; cbn; [|reflexivity].
  destruct (json_MarshalIndent_fieldSpec params) as [b [err|]]; reflexivity.
Qed.

Lemma MakeTool_Handler f name desc arg ret tool :
  toolSignature (TypeOf f) arg ret ->
  MakeTool json_Unmarshal json_MarshalIndent json_MarshalIndent_fieldSpec
    f name desc = Return tool ->
  Tool_Handler tool = Handler json_Unmarshal json_MarshalIndent f arg ret /\ Tool_Name tool = name.
Proof.
  intros Hsig Hmk. rewrite (MakeTool_signature _ _ _ _ _ Hsig) in Hmk.
  destruct (readSpec arg) as [params|v]; cbn in Hmk; [|discriminate].
  destruct (snd (json_MarshalIndent_fieldSpec params)); [discriminate|].
  injection Hmk as <-. split; reflexivity.
Qed.

Lemma MakeTool_arg_supported f name desc arg ret tool :
  toolSignature (TypeOf f) arg ret ->
  MakeTool json_Unmarshal json_MarshalIndent json_MarshalIndent_fieldSpec
    f name desc = Return tool ->
  exists params, readSpec arg = Return params.
Proof.
  intros Hsig Hmk. rewrite (MakeTool_signature _ _ _ _ _ Hsig) in Hmk.
  destruct (readSpec arg) as [params|v]; cbn in Hmk; [|discriminate].
  exists params. reflexivity.
Qed.

Lemma Handler_decode_error f arg ret input e :
  json_Unmarshal input arg = inr e ->
  Handler json_Unmarshal json_MarshalIndent f arg ret input = Return (EmptyString, Some e).
Proof. intros Hdec. unfold Handler. rewrite Hdec. reflexivity. Qed.

(** A function that is not variadic is entered with the decoded value. *)
Lemma reflectCall_not_variadic f arg v :
  reflect.IsVariadic (TypeOf f) = false -> reflectCall f arg v = Call f v.
Proof. intros Hv. unfold reflectCall. rewrite Hv. reflexivity. Qed.

Lemma Handler_function_error f arg ret input v r e :
  json_Unmarshal input arg = inl v ->
  reflectCall f arg v = Return (r, Some e) ->
  Handler json_Unmarshal json_MarshalIndent f arg ret input = Return (EmptyString, Some e).
Proof.
  intros Hdec Hcall. unfold Handler. rewrite Hdec, Hcall. reflexivity.
Qed.

(** When the function has returned a nil error, the handler's error
    result is nil whatever the encoder does. *)
Lemma Handler_encode_no_error f arg ret input v r out e :
  json_Unmarshal input arg = inl v ->
  reflectCall f arg v = Return (r, None) ->
  Handler json_Unmarshal json_MarshalIndent f arg ret input <> Return (out, Some e).
Proof.
  intros Hdec Hcall. unfold Handler. rewrite Hdec, Hcall. cbn.
  destruct (json_MarshalIndent ret r) as [b jerr]. discriminate.
Qed.

(** C6. A function whose argument type is of a kind that [readSpec] has
    no case for (any kind other than struct, slice, string, int, float32
    and bool; so every kind outside struct, sequence, string, signed
    integer, floating point and boolean) makes [MakeTool] panic with
    "unsupported type". The panic is the outcome of [MakeTool] itself:
    no [Tool] is returned, so no [Handler] exists to fail later. *)
Theorem MakeTool_unsupported_kind_panics f name desc arg ret :
  toolSignature (TypeOf f) arg ret ->
  hasCase (reflect.kind arg) = false ->
  MakeTool json_Unmarshal json_MarshalIndent json_MarshalIndent_fieldSpec
    f name desc = Panic (panicString "unsupported type")
  /\ forall tool,
       MakeTool json_Unmarshal json_MarshalIndent json_MarshalIndent_fieldSpec
         f name desc <> Return tool.
Proof.
  intros Hsig Hkind.
  pose proof (MakeTool_signature f name desc _ _ Hsig) as Heq.
  rewrite Heq, (readSpec_default _ Hkind).
  split; [reflexivity | intros tool; discriminate].
Qed.


End ToolFacts.

Lemma toolSignature_intro arg ret variadic :
  toolSignature (reflect.TFunc [arg] [ret; errorType] variadic) arg ret.
Proof. exists errorType, variadic. repeat split. Qed.

Lemma MakeTool_unsupported_kind_panics_witness :
  toolSignature (TypeOf countKeys) (reflect.TMap reflect.TString reflect.TInt)
    reflect.TInt
  /\ hasCase (reflect.kind (reflect.TMap reflect.TString reflect.TInt)) = false
  /\ demoMakeTool countKeys "countKeys" "Counts the keys."
     = Panic (panicString "unsupported type").
Proof.
  split; [apply toolSignature_intro|]. split; [reflexivity|].
  apply (MakeTool_unsupported_kind_panics demoUnmarshal demoMarshalIndent
           demoMarshalSchema countKeys "countKeys" "Counts the keys."
           (reflect.TMap reflect.TString reflect.TInt) reflect.TInt
           (toolSignature_intro _ _ _) eq_refl).
Defined.


(** The scenarios of [TestGenerateTool] that the fixtures cover. *)
Example trivial_roundtrip :
  exists tool, demoMakeTool trivial "trivial" "Trivial tool." = Return tool
               /\ Tool_Handler tool "{}" = Return ("{}", None).
Proof. eexists. split; reflexivity. Qed.

Example primitive_roundtrip :
  exists tool,
    demoMakeTool primitive "primitive" "Function taking and returning a primitive."
    = Return tool
    /\ Tool_Handler tool "42" = Return ("42", None).
Proof. eexists. split; reflexivity. Qed.

(* ===================================================================== *)
(** ** Properties of the completion loop *)
(* ===================================================================== *)

Lemma client_requests c w cl err w1 :
  client c w = (cl, err, w1) -> requests w1 = requests w.
Proof.
  unfold client, DefaultClient. intros H.
  repeat case_match; simplify_eq; reflexivity.
Qed.

(** Once [client] has succeeded, it succeeds again with the same client,
    whatever was appended to the Dialogue and recorded in between. *)
Lemma client_again c w cl w1 d req :
  client c w = (cl, None, w1) ->
  client (setDialogue c d) (record w1 req) = (cl, None, record w1 req).
Proof.
  unfold client, DefaultClient, record. cbn. intros H.
  destruct (Chat_c c) as [own|]; [congruence|].
  destruct (defaultClientOnce w) eqn:Honce.
  - injection H as <- <-. rewrite Honce. reflexivity.
  - destruct (String.eqb (OPENAI_API_KEY w) ""); [discriminate|].
    injection H as <- <-. reflexivity.
Qed.

Section LoopFacts.

Variable api :
  option openai.Client -> list openai.ChatCompletionRequest ->
  openai.ChatCompletionRequest ->
  outcome (openai.ChatCompletionResponse + error).

Lemma toolMessage_handler_result tools call h :
  openai.ToolCall_Type call = "function" ->
  findTool tools call = Some h ->
  toolMessage tools call
  = let! r := h in
    Return (toolSaid (match snd r with
                      | Some e => Error e
                      | None => fst r
                      end) call).
Proof.
  intros Hty Hfind. unfold toolMessage. rewrite Hty, Hfind. cbn.
  destruct h as [[out toolErr]|v]; reflexivity.
Qed.

Lemma findTool_unregistered tools call :
  unregistered tools call -> findTool tools call = None.
Proof.
  induction 1 as [|t tools Hne _ IH]; [reflexivity|]. cbn.
  destruct (String.eqb_spec (Tool_Name t)
              (openai.FunctionCall_Name (openai.ToolCall_Function call)));
    [contradiction | exact IH].
Qed.

Lemma findTool_first pre t post call :
  unregistered pre call ->
  Tool_Name t = openai.FunctionCall_Name (openai.ToolCall_Function call) ->
  findTool (pre ++ t :: post) call
  = Some (Tool_Handler t
            (openai.FunctionCall_Arguments (openai.ToolCall_Function call))).
Proof.
  intros Hpre Hname. induction Hpre as [|p pre Hne _ IH]; cbn.
  - rewrite Hname, String.eqb_refl. reflexivity.
  - destruct (String.eqb_spec (Tool_Name p)
                (openai.FunctionCall_Name (openai.ToolCall_Function call)));
      [contradiction | exact IH].
Qed.

(** A function-typed call to a name that no tool has: the message names
    the missing tool, and no handler runs. *)
Lemma toolMessage_unregistered tools call :
  openai.ToolCall_Type call = "function" ->
  unregistered tools call ->
  toolMessage tools call
  = Return (toolSaid ("error: no tool found with name "
                      ++ openai.FunctionCall_Name (openai.ToolCall_Function call))
              call).
Proof.
  intros Hty Hun. unfold toolMessage.
  rewrite Hty, (findTool_unregistered _ _ Hun). reflexivity.
Qed.

Lemma dispatch_extends tools calls :
  forall d o d', dispatch tools calls d = (o, d') -> exists new, d' = d ++ new.
Proof.
  induction calls as [|call rest IH]; intros d o d' Hrun; cbn in Hrun.
  - injection Hrun as _ <-. exists []. symmetry. apply app_nil_r.
  - destruct (toolMessage tools call) as [m|v].
    + apply IH in Hrun as [new ->]. exists (m :: new).
      rewrite <- app_assoc. reflexivity.
    + injection Hrun as _ <-. exists []. symmetry. apply app_nil_r.
Qed.

(** When every call's message is produced, the loop appends them all, in
    the order of the calls, and goes on. *)
Lemma dispatch_returns tools calls msgs :
  Forall2 (fun call m => toolMessage tools call = Return m) calls msgs ->
  forall d, dispatch tools calls d = (Return tt, d ++ msgs).
Proof.
  induction 1 as [|call m calls msgs Hm _ IH]; intros d; cbn.
  - rewrite app_nil_r. reflexivity.
  - rewrite Hm, IH, <- app_assoc. reflexivity.
Qed.

Lemma all_return_messages tools calls :
  Forall (fun call => returns (toolMessage tools call)) calls ->
  exists msgs,
    Forall2 (fun call m => toolMessage tools call = Return m) calls msgs.
Proof.
  induction 1 as [|call calls [m Hm] _ [msgs IH]].
  - exists []. constructor.
  - exists (m :: msgs). constructor; assumption.
Qed.

(** [Talk] only ever appends to the Dialogue, in every outcome. *)
Lemma Talk_loop_extends fuel :
  forall tools c w o c' w',
    Talk_loop api fuel tools c w = Some (o, c', w') ->
    exists new, Chat_Dialogue c' = Chat_Dialogue c ++ new.
Proof.
  induction fuel as [|fuel IH]; intros tools c w o c' w' Hrun; [discriminate|].
  cbn [Talk_loop] in Hrun.
  repeat case_match; simplify_eq;
    try (exists []; symmetry; apply app_nil_r);
    try match goal with
        | H : dispatch _ _ _ = _ |- _ =>
            apply dispatch_extends in H as [new ->]
        end;
    try (apply IH in Hrun as [new' ->]);
    cbn; eexists; rewrite <- ?app_assoc; reflexivity.
Qed.

(** Requests are only ever added, oldest first. *)
Lemma Talk_loop_requests fuel :
  forall tools c w o c' w',
    Talk_loop api fuel tools c w = Some (o, c', w') ->
    exists more, requests w' = requests w ++ more.
Proof.
  induction fuel as [|fuel IH]; intros tools c w o c' w' Hrun; [discriminate|].
  cbn [Talk_loop] in Hrun.
  destruct (client c w) as [[cl err] w1] eqn:Hcl.
  apply client_requests in Hcl.
  repeat case_match; simplify_eq; rewrite <- ?Hcl;
    try (exists []; symmetry; apply app_nil_r);
    try (cbn; rewrite Hcl; eexists; reflexivity).
  apply IH in Hrun as [more ->]. cbn. rewrite Hcl, <- app_assoc.
  eexists. reflexivity.
Qed.

End LoopFacts.

Section LoopClaims.

Variable api :
  option openai.Client -> list openai.ChatCompletionRequest ->
  openai.ChatCompletionRequest ->
  outcome (openai.ChatCompletionResponse + error).

(** An iteration that got past [client] has recorded its request by the
    time the loop is over, however it ends. *)
Lemma Talk_loop_sends fuel tools c w cl w1 o c' w' :
  client c w = (cl, None, w1) ->
  Talk_loop api (S fuel) tools c w = Some (o, c', w') ->
  exists more, requests w' = requests w1 ++ request tools c :: more.
Proof.
  intros Hcl Hrun. cbn [Talk_loop] in Hrun. rewrite Hcl in Hrun.
  repeat case_match; simplify_eq;
    try (exists []; reflexivity).
  apply Talk_loop_requests in Hrun as [more ->]. cbn.
  rewrite <- app_assoc. eexists. reflexivity.
Qed.

(** The "tool_calls" case of the loop body, for a response with a call. *)
Lemma Talk_loop_tool_calls fuel tools c w cl w1 resp choice others call calls :
  client c w = (cl, None, w1) ->
  api cl (requests w1) (request tools c) = Return (inl resp) ->
  openai.Choices resp = choice :: others ->
  openai.FinishReason choice = openai.FinishReasonToolCalls ->
  openai.ToolCalls (openai.Message choice) = call :: calls ->
  Talk_loop api (S fuel) tools c w
  = match dispatch (Chat_Tools c) (call :: calls)
            (Chat_Dialogue c ++ [openai.Message choice]) with
    | (Panic v, d) => Some (Panic v, setDialogue c d, record w1 (request tools c))
    | (Return _, d) =>
        Talk_loop api fuel tools (setDialogue c d) (record w1 (request tools c))
    end.
Proof.
  intros Hcl Hapi Hch Hreason Hcalls. cbn [Talk_loop].
  rewrite Hcl, Hapi, Hch, Hreason, Hcalls. reflexivity.
Qed.

(** The fall-through of the [switch]: a reason without a case. *)
Lemma Talk_unhandled_reason_step fuel c w cl w1 resp choice others :
  client c w = (cl, None, w1) ->
  api cl (requests w1) (sends c) = Return (inl resp) ->
  openai.Choices resp = choice :: others ->
  handledReason (openai.FinishReason choice) = false ->
  Talk api (S fuel) c w
  = Some (Return (openai.Content (openai.Message choice), None),
          setDialogue c (Chat_Dialogue c ++ [openai.Message choice]),
          record w1 (sends c)).
Proof.
  intros Hcl Hapi Hch Hreason. unfold Talk, sends in *. cbn [Talk_loop].
  rewrite Hcl, Hapi, Hch. unfold handledReason in Hreason.
  apply orb_false_elim in Hreason as [Hreason Hnull].
  apply orb_false_elim in Hreason as [Hreason Hfilter].
  apply orb_false_elim in Hreason as [Hfun Htool].
  rewrite Hfun, Htool, Hfilter, Hnull. reflexivity.
Qed.

(** C7. When the first choice of the response finishes with "stop" or
    with "length", [Talk] appends that choice's message to the Dialogue
    and returns its text with a nil error. [Talk] returns here with any
    positive fuel: the loop body runs once. *)
Theorem Talk_stop_or_length_succeeds fuel c w cl w1 resp choice others :
  client c w = (cl, None, w1) ->
  api cl (requests w1) (sends c) = Return (inl resp) ->
  openai.Choices resp = choice :: others ->
  openai.FinishReason choice = openai.FinishReasonStop
  \/ openai.FinishReason choice = openai.FinishReasonLength ->
  Talk api (S fuel) c w
  = Some (Return (openai.Content (openai.Message choice), None),
          setDialogue c (Chat_Dialogue c ++ [openai.Message choice]),
          record w1 (sends c)).
Proof.
  intros Hcl Hapi Hch Hreason. unfold Talk, sends in *. cbn [Talk_loop].
  rewrite Hcl, Hapi, Hch. destruct Hreason as [-> | ->]; reflexivity.
Qed.

(** C9. A response that finishes with "tool_calls" and carries no call
    makes [Talk] return the error "no calls provided", which wraps
    [ErrUnexpectedResponse]; the Dialogue is as before. *)
Theorem Talk_tool_calls_without_calls fuel c w cl w1 resp choice others :
  client c w = (cl, None, w1) ->
  api cl (requests w1) (sends c) = Return (inl resp) ->
  openai.Choices resp = choice :: others ->
  openai.FinishReason choice = openai.FinishReasonToolCalls ->
  openai.ToolCalls (openai.Message choice) = [] ->
  exists err,
    Talk api (S fuel) c w = Some (Return (EmptyString, Some err), c, record w1 (sends c))
    /\ Error err = "unexpected response from OpenAI API: no calls provided"
    /\ Unwrap err = Some ErrUnexpectedResponse
    /\ errors_Is err ErrUnexpectedResponse = true.
Proof.
  intros Hcl Hapi Hch Hreason Hcalls.
  exists (Errorf_w ErrUnexpectedResponse ": no calls provided").
  split; [|repeat split].
  unfold Talk, sends in *. cbn [Talk_loop].
  rewrite Hcl, Hapi, Hch, Hreason, Hcalls. reflexivity.
Qed.

(** C10. [Exchange] with the empty string returns the error "empty
    content" at once, with any fuel and any remote API: the chat is
    untouched and so is the world, whose record of requests is as it
    was. *)
Theorem Exchange_empty_content fuel c w :
  Exchange api fuel c EmptyString w
  = Some (Return (EmptyString, Some (errorString "empty content")), c, w).
Proof. reflexivity. Qed.

(** C8, amended. A "tool_calls" response asks, among its calls, for a
    function whose name no tool of the chat has, and no handler run for
    the other calls of that response panics. Then [Talk] appends, after the
    assistant's message, one tool message per call; the one for the
    unregistered call has the call's identifier and the content
    "error: no tool found with name" followed by the name. [Talk] does not
    return for this response: it sends a second request, which carries the
    longer Dialogue, and what comes of that request is what [Talk] gives:
    the panic of the remote call, its error, or its answer, appended after
    the tool messages. *)
Theorem Talk_unregistered_tool_continues c w cl w1 resp choice others i call :
  client c w = (cl, None, w1) ->
  api cl (requests w1) (sends c) = Return (inl resp) ->
  openai.Choices resp = choice :: others ->
  openai.FinishReason choice = openai.FinishReasonToolCalls ->
  openai.ToolCalls (openai.Message choice) !! i = Some call ->
  openai.ToolCall_Type call = "function" ->
  unregistered (Chat_Tools c) call ->
  Forall (fun call' => returns (toolMessage (Chat_Tools c) call'))
         (openai.ToolCalls (openai.Message choice)) ->
  exists msgs,
    length msgs = length (openai.ToolCalls (openai.Message choice))
    /\ msgs !! i
       = Some (toolSaid ("error: no tool found with name "
                         ++ openai.FunctionCall_Name (openai.ToolCall_Function call))
                 call)
    /\ let c2 := setDialogue c (Chat_Dialogue c ++ openai.Message choice :: msgs) in
       let w2 := record w1 (sends c) in
       (forall fuel, Talk api (S fuel) c w = Talk api fuel c2 w2)
       /\ (forall fuel o c' w',
              Talk api (S fuel) c w = Some (o, c', w') ->
              exists more,
                requests w' = requests w1 ++ sends c :: sends c2 :: more)
       /\ (forall fuel pv,
              api cl (requests w2) (sends c2) = Panic pv ->
              Talk api (S (S fuel)) c w
              = Some (Panic pv, c2, record w2 (sends c2)))
       /\ (forall fuel e,
              api cl (requests w2) (sends c2) = Return (inr e) ->
              Talk api (S (S fuel)) c w
              = Some (Return (EmptyString, Some e), c2, record w2 (sends c2)))
       /\ (forall fuel resp2 choice2 others2,
              api cl (requests w2) (sends c2) = Return (inl resp2) ->
              openai.Choices resp2 = choice2 :: others2 ->
              handledReason (openai.FinishReason choice2) = false ->
              Talk api (S (S fuel)) c w
              = Some (Return (openai.Content (openai.Message choice2), None),
                      setDialogue c2 (Chat_Dialogue c2 ++ [openai.Message choice2]),
                      record w2 (sends c2))).
Proof.
  intros Hcl Hapi Hch Hreason Hcall Hty Hun Hall.
  destruct (all_return_messages _ _ Hall) as [msgs Hmsgs].
  exists msgs.
  assert (Hstep : forall fuel,
             Talk api (S fuel) c w
             = Talk api fuel
                 (setDialogue c (Chat_Dialogue c ++ openai.Message choice :: msgs))
                 (record w1 (sends c))).
  { intros fuel. unfold Talk, sends in *.
    destruct (openai.ToolCalls (openai.Message choice)) as [|call0 calls] eqn:Hcalls;
      [discriminate Hcall|].
    rewrite (Talk_loop_tool_calls _ _ _ _ _ _ _ _ _ _ _ Hcl Hapi Hch Hreason Hcalls).
    rewrite (dispatch_returns _ _ _ Hmsgs), <- app_assoc. reflexivity. }
  pose proof (client_again c w cl w1
                (Chat_Dialogue c ++ openai.Message choice :: msgs) (sends c) Hcl)
    as Hagain.
  split; [symmetry; eapply Forall2_length; eassumption|].
  split.
  { destruct (Forall2_lookup_l _ _ _ _ _ Hmsgs Hcall) as (m & Hm & Hmsg).
    rewrite Hm. f_equal.
    rewrite (toolMessage_unregistered _ _ Hty Hun) in Hmsg. congruence. }
  cbv zeta. split; [exact Hstep|]. split; [|split; [|split]].
  - intros fuel o c' w' Hrun. rewrite Hstep in Hrun.
    destruct fuel as [|fuel]; [discriminate|].
    unfold Talk in Hrun.
    destruct (Talk_loop_sends _ _ _ _ _ _ _ _ _ Hagain Hrun) as [more Hmore].
    exists more. rewrite Hmore. cbn. rewrite <- app_assoc. reflexivity.
  - intros fuel pv Hapi2. rewrite Hstep. unfold Talk, sends in *.
    cbn [Talk_loop]. rewrite Hagain. cbn [Chat_Tools setDialogue] in *.
    rewrite Hapi2. reflexivity.
  - intros fuel e Hapi2. rewrite Hstep. unfold Talk, sends in *.
    cbn [Talk_loop]. rewrite Hagain. cbn [Chat_Tools setDialogue] in *.
    rewrite Hapi2. reflexivity.
  - intros fuel resp2 choice2 others2 Hapi2 Hch2 Hreason2. rewrite Hstep.
    apply (Talk_unhandled_reason_step _ _ _ _ _ _ _ _ Hagain Hapi2 Hch2 Hreason2).
Qed.

(** C1. If [Exchange] returns an error, the Dialogue afterwards is the
    Dialogue before the call, message for message, whatever the loop
    had appended before it failed. If [Exchange] returns a response, the
    Dialogue afterwards is the Dialogue before, followed by the user's
    message and by what the loop appended. *)
Theorem Exchange_atomic fuel c content w r c' w' :
  Exchange api fuel c content w = Some (Return r, c', w') ->
  match snd r with
  | Some _ => Chat_Dialogue c' = Chat_Dialogue c
  | None =>
      exists new,
        Chat_Dialogue c'
        = Chat_Dialogue c ++ say openai.ChatMessageRoleUser content :: new
  end.
Proof.
  unfold Exchange. intros Hrun.
  destruct (String.eqb content "").
  - injection Hrun as <- <- _. reflexivity.
  - destruct (Talk api fuel (UserSaid c content) w)
      as [[[[[resp [err|]]|v] c1] w1]|] eqn:Htalk;
      try discriminate; injection Hrun as <- <- _; cbn;
      apply Talk_loop_extends in Htalk as [new Hnew]; cbn in Hnew.
    + rewrite Hnew, <- app_assoc. apply take_app_length.
    + exists new. rewrite Hnew, <- app_assoc. reflexivity.
Qed.

End LoopClaims.

(** C4, amended. For a tool that [MakeTool] has returned and that is the
    first of its name among the chat's tools, the errors that [Handler]
    returns are recovered where the call is dispatched: when the input does
    not decode, and when the wrapped function (called through reflection,
    [reflectCall]; for a function that is not variadic, the function
    applied to the decoded value) returns an error, the tool message for
    the call has the error's text as its content, and the loop is not
    left. A failure to encode the function's value is not among them:
    [Handler] never returns it as its error result. *)
Theorem returned_tool_errors_become_content
  (json_Unmarshal : string -> reflect.rtype -> Value + error)
  (json_MarshalIndent : reflect.rtype -> Value -> string * option error)
  (json_MarshalIndent_fieldSpec : fieldSpec -> string * option error)
  f name desc arg ret tool pre post call :
  toolSignature (TypeOf f) arg ret ->
  MakeTool json_Unmarshal json_MarshalIndent json_MarshalIndent_fieldSpec
    f name desc = Return tool ->
  openai.ToolCall_Type call = "function" ->
  openai.FunctionCall_Name (openai.ToolCall_Function call) = name ->
  unregistered pre call ->
  let input := openai.FunctionCall_Arguments (openai.ToolCall_Function call) in
  (forall e,
      json_Unmarshal input arg = inr e ->
      toolMessage (pre ++ tool :: post) call = Return (toolSaid (Error e) call))
  /\ (forall v r e,
         json_Unmarshal input arg = inl v ->
         reflectCall f arg v = Return (r, Some e) ->
         toolMessage (pre ++ tool :: post) call = Return (toolSaid (Error e) call))
  /\ (reflect.IsVariadic (TypeOf f) = false ->
      forall v r e,
        json_Unmarshal input arg = inl v ->
        Call f v = Return (r, Some e) ->
        toolMessage (pre ++ tool :: post) call = Return (toolSaid (Error e) call))
  /\ (forall v r b jerr,
         json_Unmarshal input arg = inl v ->
         reflectCall f arg v = Return (r, None) ->
         json_MarshalIndent ret r = (b, Some jerr) ->
         forall out e, Tool_Handler tool input <> Return (out, Some e)).
Proof.
  intros Hsig Hmk Hty Hname Hpre input.
  destruct (MakeTool_Handler _ _ _ _ _ _ _ _ _ Hsig Hmk) as [Hh Hn].
  assert (Hfind : findTool (pre ++ tool :: post) call = Some (Tool_Handler tool input)).
  { apply findTool_first; [exact Hpre | congruence]. }
  assert (Hfun : forall v r e,
             json_Unmarshal input arg = inl v ->
             reflectCall f arg v = Return (r, Some e) ->
             toolMessage (pre ++ tool :: post) call
             = Return (toolSaid (Error e) call)).
  { intros v r e Hdec Hcall.
    rewrite (toolMessage_handler_result _ _ _ Hty Hfind), Hh.
    rewrite (Handler_function_error _ _ _ _ _ _ _ _ _ Hdec Hcall). reflexivity. }
  split; [|split; [exact Hfun|split]].
  - intros e Hdec.
    rewrite (toolMessage_handler_result _ _ _ Hty Hfind), Hh.
    rewrite (Handler_decode_error _ _ _ _ _ _ _ Hdec). reflexivity.
  - intros Hv v r e Hdec Hcall. apply (Hfun v r e Hdec).
    rewrite (reflectCall_not_variadic _ _ _ Hv). exact Hcall.
  - intros v r b jerr Hdec Hcall _ out e. rewrite Hh.
    apply (Handler_encode_no_error _ _ _ _ _ _ _ _ _ _ Hdec Hcall).
Qed.

(* ===================================================================== *)
(** ** The theorems at work on the fixtures *)
(* ===================================================================== *)

Lemma Talk_stop_or_length_succeeds_witness :
  exists c' w',
    Talk (scripted [answer "length" (say "assistant" "Once upon a")])
      1 (demoChat []) demoWorld
    = Some (Return ("Once upon a", None), c', w')
    /\ Chat_Dialogue c'
       = Chat_Dialogue (demoChat []) ++ [say "assistant" "Once upon a"]
    /\ length (requests w') = 1.
Proof.
  pose proof (Talk_stop_or_length_succeeds
                (scripted [answer "length" (say "assistant" "Once upon a")])
                0 (demoChat []) demoWorld _ _ _ _ _
                eq_refl eq_refl eq_refl (or_intror eq_refl)) as Hrun.
  eexists _, _. split; [exact Hrun|]. split; reflexivity.
Defined.

Lemma Talk_tool_calls_without_calls_witness :
  exists err w',
    Talk (scripted [answer "tool_calls" (asksFor [])]) 1 (demoChat []) demoWorld
    = Some (Return (EmptyString, Some err), demoChat [], w')
    /\ Unwrap err = Some ErrUnexpectedResponse.
Proof.
  destruct (Talk_tool_calls_without_calls
              (scripted [answer "tool_calls" (asksFor [])])
              0 (demoChat []) demoWorld _ _ _ _ _
              eq_refl eq_refl eq_refl eq_refl eq_refl)
    as (err & Hrun & _ & Hwrap & _).
  exists err. eexists. split; [exact Hrun | exact Hwrap].
Defined.

Lemma Talk_unregistered_tool_continues_witness :
  exists msgs c' w',
    msgs !! 0 = Some (toolSaid "error: no tool found with name rollDie"
                        (callOf "call_1" "rollDie" "{}"))
    /\ length msgs = 1
    /\ Talk (scripted askThenAnswer) 2 (demoChat []) demoWorld
       = Some (Return ("You miss.", None), c', w')
    /\ Chat_Dialogue c'
       = (Chat_Dialogue (demoChat [])
          ++ asksFor [callOf "call_1" "rollDie" "{}"] :: msgs)
         ++ [say "assistant" "You miss."].
Proof.
  edestruct (Talk_unregistered_tool_continues
               (scripted askThenAnswer) (demoChat []) demoWorld)
    with (i := 0) (call := callOf "call_1" "rollDie" "{}")
    as (msgs & Hlen & Hmsg & _ & _ & _ & _ & Hanswer);
    [reflexivity | reflexivity | reflexivity | reflexivity | reflexivity
    | reflexivity | constructor
    | repeat constructor; eexists; reflexivity | ].
  exists msgs. eexists _, _. split; [exact Hmsg|]. split; [exact Hlen|].
  split; [exact (Hanswer 0 _ _ _ eq_refl eq_refl eq_refl) | reflexivity].
Defined.

(** C8 as stated fails when a handler run for another call of the same
    response panics. The chat has the tool that [MakeTool] makes of the
    variadic [joinAll]; the response asks for it and then for [rollDie],
    which the chat does not have. The handler of [joinAll] panics in
    [reflect.Value.Call], the panic unwinds [Talk], and the Dialogue has
    the assistant's message and no tool message at all; no second request
    is sent. *)
Lemma panic_of_another_call_stops_the_reply :
  exists tool c' w',
    MakeTool listUnmarshal demoMarshalIndent demoMarshalSchema
      joinAll "joinAll" "Joins strings." = Return tool
    /\ openai.ToolCall_Type (callOf "call_2" "rollDie" "{}") = "function"
    /\ unregistered [tool] (callOf "call_2" "rollDie" "{}")
    /\ Talk (scripted askForTwo) 3 (demoChat [tool]) demoWorld
       = Some (Panic (panicCannotUse (reflect.TSlice reflect.TString) reflect.TString),
               c', w')
    /\ Chat_Dialogue c'
       = Chat_Dialogue (demoChat [tool])
         ++ [asksFor [callOf "call_1" "joinAll" "[]";
                      callOf "call_2" "rollDie" "{}"]]
    /\ length (requests w') = 1.
Proof.
  eexists _, _, _. split; [reflexivity|]. split; [reflexivity|].
  split; [repeat constructor; discriminate|].
  split; [reflexivity|]. split; reflexivity.
Qed.

Example Talk_answers_after_unregistered_tool :
  exists c' w',
    Talk (scripted askThenAnswer) 2 (demoChat []) demoWorld
    = Some (Return ("You miss.", None), c', w')
    /\ Chat_Dialogue c'
       = Chat_Dialogue (demoChat [])
         ++ [asksFor [callOf "call_1" "rollDie" "{}"];
             toolSaid "error: no tool found with name rollDie"
               (callOf "call_1" "rollDie" "{}");
             say "assistant" "You miss."]
    /\ length (requests w') = 2.
Proof. eexists _, _. split; [reflexivity|]. split; reflexivity. Qed.

Example Talk_fails_after_appending :
  exists c' w',
    Talk (scripted askThenFiltered) 2 (UserSaid (demoChat []) "I swing my sword.")
      demoWorld
    = Some (Return (EmptyString, Some ErrContentFilter), c', w')
    /\ length (Chat_Dialogue c') = 4.
Proof. eexists _, _. split; reflexivity. Qed.

Lemma Exchange_atomic_witness :
  exists c' w',
    Exchange (scripted askThenFiltered) 2 (demoChat []) "I swing my sword." demoWorld
    = Some (Return (EmptyString, Some ErrContentFilter), c', w')
    /\ length (requests w') = 2
    /\ Chat_Dialogue c' = Chat_Dialogue (demoChat []).
Proof.
  eexists _, _. split; [reflexivity|]. split; [reflexivity|].
  exact (Exchange_atomic (scripted askThenFiltered) 2 (demoChat [])
           "I swing my sword." demoWorld _ _ _ eq_refl).
Defined.

(** The other ways for [Exchange] to fail: no client can be made, and the
    remote call itself fails. *)
Example Exchange_without_api_key :
  exists w',
    Exchange (scripted askThenAnswer) 2 (demoChat []) "I swing my sword."
      (mkWorld EmptyString None false [])
    = Some (Return (EmptyString,
                    Some (errorString "OPENAI_API_KEY environment variable not set")),
            demoChat [], w')
    /\ requests w' = [].
Proof. eexists. split; reflexivity. Qed.

Example Exchange_transport_error :
  exists w',
    Exchange (scripted []) 2 (demoChat []) "I swing my sword." demoWorld
    = Some (Return (EmptyString, Some (errorString "EOF")), demoChat [], w')
    /\ length (requests w') = 1.
Proof. eexists. split; reflexivity. Qed.

Example Exchange_success_keeps_transcript :
  exists c' w',
    Exchange (scripted askThenAnswer) 2 (demoChat []) "I swing my sword." demoWorld
    = Some (Return ("You miss.", None), c', w')
    /\ Chat_Dialogue c'
       = Chat_Dialogue (demoChat [])
         ++ [say "user" "I swing my sword.";
             asksFor [callOf "call_1" "rollDie" "{}"];
             toolSaid "error: no tool found with name rollDie"
               (callOf "call_1" "rollDie" "{}");
             say "assistant" "You miss."].
Proof. eexists _, _. split; reflexivity. Qed.

Lemma returned_tool_errors_become_content_witness :
  exists tool,
    demoMakeTool trivialError "trivialError" "Trivial tool with error." = Return tool
    /\ toolMessage [tool] (callOf "call_1" "trivialError" "{}")
       = Return (toolSaid "trivial error" (callOf "call_1" "trivialError" "{}"))
    /\ toolMessage [tool] (callOf "call_2" "trivialError" "{")
       = Return (toolSaid "unexpected end of JSON input"
                   (callOf "call_2" "trivialError" "{")).
Proof.
  eexists. split; [reflexivity|]. split.
  - destruct (returned_tool_errors_become_content
                demoUnmarshal demoMarshalIndent demoMarshalSchema
                trivialError "trivialError" "Trivial tool with error."
                emptyStruct emptyStruct _ [] [] (callOf "call_1" "trivialError" "{}")
                (toolSignature_intro _ _ _) eq_refl eq_refl eq_refl (Forall_nil_2 _))
      as (_ & Hfun & _).
    exact (Hfun (VStruct []) (VStruct []) (errorString "trivial error")
             eq_refl eq_refl).
  - destruct (returned_tool_errors_become_content
                demoUnmarshal demoMarshalIndent demoMarshalSchema
                trivialError "trivialError" "Trivial tool with error."
                emptyStruct emptyStruct _ [] [] (callOf "call_2" "trivialError" "{")
                (toolSignature_intro _ _ _) eq_refl eq_refl eq_refl (Forall_nil_2 _))
      as (Hdec & _).
    exact (Hdec (errorString "unexpected end of JSON input") eq_refl).
Defined.

(** C4 as stated fails on a tool whose function returns NaN with a nil
    error: the encoder refuses the value, [Handler] returns the encoder's
    (empty) output with a nil error, and the tool message that reaches the
    model has the empty content, not the text of the encoding error. *)
Lemma encode_failure_is_not_reported :
  exists tool r jerr c' w',
    demoMakeTool notANumber "notANumber" "Returns NaN." = Return tool
    /\ Call notANumber (VStruct []) = Return (r, None)
    /\ snd (demoMarshalIndent reflect.TFloat32 r) = Some jerr
    /\ Talk (scripted askForNaN) 2 (demoChat [tool]) demoWorld
       = Some (Return ("done", None), c', w')
    /\ Chat_Dialogue c' !! 2
       = Some (toolSaid EmptyString (callOf "call_1" "notANumber" "{}"))
    /\ forall m, Chat_Dialogue c' !! 2 = Some m -> openai.Content m <> Error jerr.
Proof.
  eexists _, _, _, _, _.
  split; [reflexivity|]. split; [reflexivity|]. split; [reflexivity|].
  split; [reflexivity|]. split; [reflexivity|].
  intros m Hm. injection Hm as <-. discriminate.
Qed.

(* ===================================================================== *)
(** ** More on schema derivation *)
(* ===================================================================== *)

Set Warnings "-clear-no-such-hyp".

(** Induction over a type along the two paths that [readSpec] descends:
    the element of a slice and the fields of a struct. *)
Lemma rtype_schema_ind (P : reflect.rtype -> Prop) :
  (forall t, reflect.kind t <> reflect.Slice ->
             reflect.kind t <> reflect.Struct -> P t) ->
  (forall elem, P elem -> P (reflect.TSlice elem)) ->
  (forall fields, Forall (fun f => P (reflect.Type_ f)) fields ->
                  P (reflect.TStruct fields)) ->
  forall t, P t.
Proof.
  intros Hleaf Hslice Hstruct. fix IH 1. intros t.
  destruct t; try (apply Hleaf; discriminate).
  - apply Hslice, IH.
  - apply Hstruct. induction fields as [|f rest IHrest]; constructor.
    + apply IH.
    + exact IHrest.
Qed.

Lemma readFields_returns fs :
  Forall (fun f => returns (readSpec (reflect.Type_ f))) fs ->
  forall s, returns (readFields fs s).
Proof.
  induction 1 as [|f rest [sub Hsub] _ IH]; intros s.
  - exists s. reflexivity.
  - rewrite readFields_cons, Hsub. cbn. apply IH.
Qed.

Lemma readFields_panics fs :
  Forall (fun f => match readSpec (reflect.Type_ f) with
                   | Return _ => True
                   | Panic v => v = panicString "unsupported type"
                   end) fs ->
  forall s v, readFields fs s = Panic v -> v = panicString "unsupported type".
Proof.
  induction 1 as [|f rest Hf _ IH]; intros s v Hrun.
  - discriminate.
  - rewrite readFields_cons in Hrun.
    destruct (readSpec (reflect.Type_ f)) as [sub|v']; cbn in Hrun.
    + eapply IH, Hrun.
    + congruence.
Qed.

Lemma readFields_first_panic fs :
  forall s, returns (readFields fs s) ->
            Forall (fun f => returns (readSpec (reflect.Type_ f))) fs.
Proof.
  induction fs as [|f rest IH]; intros s [s' Hrun]; constructor.
  - rewrite readFields_cons in Hrun.
    destruct (readSpec (reflect.Type_ f)) as [sub|v]; [eexists; reflexivity|discriminate].
  - rewrite readFields_cons in Hrun.
    destruct (readSpec (reflect.Type_ f)) as [sub|v]; cbn in Hrun; [|discriminate].
    eapply IH. eexists. exact Hrun.
Qed.

(** On a type that does not contain itself, schema derivation returns
    exactly when the type is built from struct, slice, string, int,
    float32 and bool all the way down; on every other such type it panics,
    and always with "unsupported type". Every type of the model is of that
    sort, a finite tree. A Go type that refers to itself ([type T struct{
    Kids []T }]) is not among them, and the theorem says nothing of it: on
    such a type the recursion of [readSpec] has no end. *)
Theorem readSpec_returns_iff_supported t :
  match readSpec t with
  | Return _ => supported t = true
  | Panic v => supported t = false /\ v = panicString "unsupported type"
  end.
Proof.
  induction t as [t Hns Hnst | elem IH | fields IH] using rtype_schema_ind.
  - destruct t; cbn; try (split; reflexivity); try reflexivity;
      [exfalso; apply Hns; reflexivity | exfalso; apply Hnst; reflexivity].
  - cbn. destruct (readSpec elem) as [sub|v]; cbn; exact IH.
  - rewrite readSpec_struct. cbn [supported].
    destruct (readFields fields (setType zeroFieldSpec "object")) as [s|v] eqn:Hrun.
    + apply forallb_forall. intros f Hin.
      assert (Hall := readFields_first_panic _ _ (ex_intro _ s Hrun)).
      rewrite Forall_forall in Hall, IH.
      rewrite <- list_elem_of_In in Hin.
      destruct (Hall f Hin) as [sub Hsub]. specialize (IH f Hin).
      rewrite Hsub in IH. exact IH.
    + split.
      * destruct (forallb _ fields) eqn:Hall; [|reflexivity].
        assert (Hret : Forall (fun f => returns (readSpec (reflect.Type_ f))) fields).
        { rewrite Forall_forall in *. intros f Hin. specialize (IH f Hin).
          rewrite forallb_forall in Hall. rewrite list_elem_of_In in Hin.
          specialize (Hall f Hin). cbn in Hall.
          destruct (readSpec (reflect.Type_ f)) as [sub|v'];
            [eexists; reflexivity|]. destruct IH; congruence. }
        destruct (readFields_returns _ Hret (setType zeroFieldSpec "object")) as [s Hs].
        congruence.
      * eapply readFields_panics; [|exact Hrun].
        eapply Forall_impl; [exact IH|]. cbn. intros f Hf.
        destruct (readSpec (reflect.Type_ f)); [exact I | apply Hf].
Qed.

Lemma readFields_shape fs :
  forall s s', readFields fs s = Return s' ->
               Type_ s' = Type_ s /\ Items s' = Items s
               /\ Description s' = Description s /\ Enum s' = Enum s.
Proof.
  induction fs as [|f rest IH]; intros s s' Hrun.
  - cbn in Hrun. injection Hrun as <-. repeat split.
  - rewrite readFields_cons in Hrun.
    destruct (readSpec (reflect.Type_ f)) as [sub|v]; cbn in Hrun; [|discriminate].
    apply IH in Hrun as (-> & -> & -> & ->).
    destruct (fieldRequired f); repeat split.
Qed.

(** A derived schema has the [type] of its kind; [items] exactly for a
    slice; [properties] and [required] only for a struct; and neither
    [description] nor [enum] at its top, which only field tags set. *)
Theorem readSpec_shape t s :
  readSpec t = Return s ->
  Type_ s = schemaType (reflect.kind t)
  /\ (is_Some (Items s) <-> reflect.kind t = reflect.Slice)
  /\ (reflect.kind t <> reflect.Struct -> Properties s = ∅ /\ Required s = [])
  /\ Description s = EmptyString /\ Enum s = [].
Proof.
  intros Hrun. destruct t; cbn in Hrun; try discriminate;
    try (injection Hrun as <-; cbn; repeat split;
         try (intros [x Hx]; discriminate); try discriminate; congruence).
  - destruct (readSpec t) as [sub|v]; cbn in Hrun; [|discriminate].
    injection Hrun as <-. cbn. repeat split; try (eexists; reflexivity).
  - change (readFields fields (setType zeroFieldSpec "object") = Return s) in Hrun.
    apply readFields_shape in Hrun as (-> & -> & -> & ->). cbn.
    repeat split; try (intros [x Hx]; discriminate); try discriminate; congruence.
Qed.

Lemma readSpec_shape_witness :
  exists s, readSpec (reflect.TSlice args1) = Return s
            /\ Type_ s = "array" /\ is_Some (Items s).
Proof.
  eexists. split; [reflexivity|].
  destruct (readSpec_shape (reflect.TSlice args1) _ eq_refl) as (Hty & Hit & _).
  split; [exact Hty | apply Hit; reflexivity].
Defined.

Lemma readFields_Properties_dom fs :
  forall s s', readFields fs s = Return s' ->
               dom (Properties s')
               = dom (Properties s) ∪ list_to_set (map fieldName fs).
Proof.
  induction fs as [|f rest IH]; intros s s' Hrun.
  - cbn in Hrun. injection Hrun as <-. cbn. set_solver.
  - rewrite readFields_cons in Hrun.
    destruct (readSpec (reflect.Type_ f)) as [sub|v]; cbn in Hrun; [|discriminate].
    apply IH in Hrun. rewrite Hrun. cbn. rewrite dom_insert_L.
    destruct (fieldRequired f); cbn; set_solver.
Qed.

Lemma readFields_Properties_other fs name :
  name ∉ map fieldName fs ->
  forall s s', readFields fs s = Return s' ->
               Properties s' !! name = Properties s !! name.
Proof.
  induction fs as [|f rest IH]; intros Hnot s s' Hrun.
  - cbn in Hrun. congruence.
  - rewrite readFields_cons in Hrun.
    destruct (readSpec (reflect.Type_ f)) as [sub|v]; cbn in Hrun; [|discriminate].
    cbn in Hnot. apply not_elem_of_cons in Hnot as [Hne Hnot].
    rewrite (IH Hnot _ _ Hrun). cbn. rewrite lookup_insert_ne by congruence.
    destruct (fieldRequired f); reflexivity.
Qed.

Lemma struct_Properties_dom fields s :
  readSpec (reflect.TStruct fields) = Return s ->
  dom (Properties s) = (list_to_set (map fieldName fields) : gset string).
Proof.
  intros Hrun. rewrite readSpec_struct in Hrun.
  apply readFields_Properties_dom in Hrun. rewrite Hrun. cbn.
  rewrite dom_empty_L. set_solver.
Qed.

Lemma struct_Required fields s :
  readSpec (reflect.TStruct fields) = Return s ->
  Required s = requiredNames fields.
Proof.
  intros Hrun. rewrite readSpec_struct in Hrun.
  apply readFields_Required in Hrun. exact Hrun.
Qed.

(** Every field of a struct becomes a property: the keys of [properties]
    are the names of the fields. *)
Theorem readSpec_properties_are_the_fields fields s :
  readSpec (reflect.TStruct fields) = Return s ->
  dom (Properties s) = (list_to_set (map fieldName fields) : gset string).
Proof. apply struct_Properties_dom. Qed.

Lemma readSpec_properties_are_the_fields_witness :
  exists s, readSpec args2 = Return s
            /\ dom (Properties s) = ({["list"; "nested"]} : gset string).
Proof.
  eexists. split; [reflexivity|].
  rewrite (readSpec_properties_are_the_fields _ _
             (eq_refl : readSpec args2 = Return _)).
  cbn. set_solver.
Defined.

(** The property of a field is the schema of the field's type with the
    field's [desc] and [enum] tags applied. When several fields have one
    name, the last of them is the one that stays. *)
Theorem readSpec_property_of_field pre f post s :
  fieldName f ∉ map fieldName post ->
  readSpec (reflect.TStruct (pre ++ f :: post)) = Return s ->
  exists sub,
    readSpec (reflect.Type_ f) = Return sub
    /\ Properties s !! fieldName f = Some (parseTag sub (reflect.Tag f)).
Proof.
  intros Hlast. rewrite readSpec_struct.
  generalize (setType zeroFieldSpec "object").
  induction pre as [|p pre IH]; intros s0 Hrun; cbn [app] in Hrun;
    rewrite readFields_cons in Hrun.
  - destruct (readSpec (reflect.Type_ f)) as [sub|v]; cbn in Hrun; [|discriminate].
    exists sub. split; [reflexivity|].
    rewrite (readFields_Properties_other _ _ Hlast _ _ Hrun). cbn.
    apply lookup_insert_eq.
  - destruct (readSpec (reflect.Type_ p)) as [sub|v]; cbn in Hrun; [|discriminate].
    eapply IH, Hrun.
Qed.

Lemma readSpec_property_of_field_witness :
  exists s q,
    readSpec args1 = Return s
    /\ Properties s !! "bar" = Some q /\ Type_ q = "integer".
Proof.
  eexists. 
  destruct (readSpec_property_of_field
              [reflect.mkStructField "Foo" reflect.TString [("json", "foo")]]
              (reflect.mkStructField "Bar" reflect.TInt [("json", "bar,omitempty")])
              [] _ (not_elem_of_nil _) (eq_refl : readSpec args1 = Return _))
    as (sub & Hsub & Hlook).
  exists (parseTag sub [("json", "bar,omitempty")]).
  split; [reflexivity|]. split; [exact Hlook|].
  injection Hsub as <-. reflexivity.
Defined.

(** Every name in [required] is a key of [properties]. *)
Theorem readSpec_required_are_properties fields s name :
  readSpec (reflect.TStruct fields) = Return s ->
  name ∈ Required s ->
  is_Some (Properties s !! name).
Proof.
  intros Hrun Hreq. apply elem_of_dom.
  rewrite (struct_Properties_dom _ _ Hrun).
  rewrite (struct_Required _ _ Hrun) in Hreq. unfold requiredNames in Hreq.
  apply elem_of_list_to_set.
  change (@map) with (@fmap list _) in *.
  apply list_elem_of_fmap in Hreq as (f & -> & Hf).
  apply list_elem_of_filter in Hf as [_ Hin].
  apply list_elem_of_fmap. exists f. split; [reflexivity | exact Hin].
Qed.

Lemma readSpec_required_are_properties_witness :
  exists s, readSpec args1 = Return s /\ is_Some (Properties s !! "foo").
Proof.
  eexists. split; [reflexivity|].
  apply (readSpec_required_are_properties _ _ "foo"
           (eq_refl : readSpec args1 = Return _)).
  cbn. apply list_elem_of_here.
Defined.

Lemma Split_nonempty s sep : strings.Split s sep <> [].
Proof.
  destruct s as [|c s]; cbn; [discriminate|].
  destruct (Ascii.eqb c sep); [discriminate|].
  destruct (strings.Split s sep); discriminate.
Qed.

Lemma Join_Split s sep : Join (strings.Split s sep) sep = s.
Proof.
  induction s as [|c s IH]; [reflexivity|]. cbn [strings.Split].
  destruct (Ascii.eqb_spec c sep) as [->|Hne].
  - pose proof (Split_nonempty s sep) as Hn.
    destruct (strings.Split s sep) as [|h t]; [contradiction|].
    rewrite <- IH. reflexivity.
  - destruct (strings.Split s sep) as [|h t] eqn:Hs;
      [exfalso; exact (Split_nonempty _ _ Hs)|].
    rewrite <- IH. destruct t; reflexivity.
Qed.

Lemma Split_no_sep s sep :
  Forall (fun x => hasByte sep x = false) (strings.Split s sep).
Proof.
  induction s as [|c s IH]; cbn [strings.Split].
  - constructor; [reflexivity | constructor].
  - destruct (Ascii.eqb c sep) eqn:Hc.
    + constructor; [reflexivity | exact IH].
    + destruct (strings.Split s sep) as [|h t].
      * constructor; [cbn; rewrite Hc; reflexivity | constructor].
      * inversion IH as [|? ? Hh Ht]; subst. constructor; [|exact Ht].
        cbn. rewrite Hc, Hh. reflexivity.
Qed.

(** An [enum] tag gives the field its enumerated values: the pieces of
    the tag between commas, in order (joined by commas they are the tag
    again; none holds a comma; there is always at least one). The rest of
    the field's schema is as derived from its type, but for the
    description. *)
Theorem parseTag_enum_is_the_tag_split s tag e :
  reflect.Lookup tag "enum" = Some e ->
  Join (Enum (parseTag s tag)) comma = e
  /\ Forall (fun v => hasByte comma v = false) (Enum (parseTag s tag))
  /\ Enum (parseTag s tag) <> []
  /\ Type_ (parseTag s tag) = Type_ s
  /\ Properties (parseTag s tag) = Properties s
  /\ Items (parseTag s tag) = Items s
  /\ Required (parseTag s tag) = Required s.
Proof.
  intros He. unfold parseTag. rewrite He. cbn.
  split; [apply Join_Split|]. split; [apply Split_no_sep|].
  split; [apply Split_nonempty|].
  destruct (reflect.Lookup tag "desc"); repeat split.
Qed.

Lemma parseTag_enum_is_the_tag_split_witness :
  Enum (parseTag zeroFieldSpec
          [("json", "qux"); ("enum", "foo,baar,baaaz"); ("desc", "extra string")])
  = ["foo"; "baar"; "baaaz"]
  /\ Join ["foo"; "baar"; "baaaz"] comma = "foo,baar,baaaz".
Proof.
  split; [reflexivity|].
  exact (proj1 (parseTag_enum_is_the_tag_split zeroFieldSpec
                  [("json", "qux"); ("enum", "foo,baar,baaaz"); ("desc", "extra string")]
                  "foo,baar,baaaz" eq_refl)).
Defined.

(** A [json] tag that begins with a comma (options and no name, as in
    [json:",omitempty"]) enters the field under the empty name, not under
    the field's own. *)
Theorem readSpec_option_only_tag_names_field_empty fields f rest s :
  f ∈ fields ->
  jsonTag f = String comma rest ->
  readSpec (reflect.TStruct fields) = Return s ->
  is_Some (Properties s !! EmptyString)
  /\ (omitempty f = false -> EmptyString ∈ Required s).
Proof.
  intros Hin Htag Hrun.
  assert (Hname : fieldName f = EmptyString).
  { unfold fieldName. rewrite Htag. reflexivity. }
  split.
  - apply elem_of_dom. rewrite (struct_Properties_dom _ _ Hrun).
    apply elem_of_list_to_set. rewrite <- Hname.
    change (@map) with (@fmap list _). apply list_elem_of_fmap_2, Hin.
  - intros Hom.
    rewrite (struct_Required _ _ Hrun). apply requiredNames_elem.
    exists f. repeat split; try assumption.
    + rewrite Htag. discriminate.
    + rewrite Htag. reflexivity.
Qed.

Lemma readSpec_option_only_tag_names_field_empty_witness :
  exists s,
    readSpec (reflect.TStruct
                [reflect.mkStructField "Limit" reflect.TInt [("json", ",omitempty")]])
    = Return s
    /\ is_Some (Properties s !! EmptyString) /\ Properties s !! "Limit" = None.
Proof.
  eexists. split; [reflexivity|]. split; [|reflexivity].
  apply (readSpec_option_only_tag_names_field_empty
           [reflect.mkStructField "Limit" reflect.TInt [("json", ",omitempty")]]
           (reflect.mkStructField "Limit" reflect.TInt [("json", ",omitempty")])
           "omitempty" _ (list_elem_of_here _ _) eq_refl eq_refl).
Defined.

(* ===================================================================== *)
(** ** More on [MakeTool] and [Handler] *)
(* ===================================================================== *)

Lemma Kind_eqb_eq a b : reflect.Kind_eqb a b = true <-> a = b.
Proof. split; [destruct a, b; (reflexivity || discriminate) | intros ->; destruct b; reflexivity]. Qed.

Section MoreToolFacts.

Variable json_Unmarshal : string -> reflect.rtype -> Value + error.
Variable json_MarshalIndent : reflect.rtype -> Value -> string * option error.
Variable json_MarshalIndent_fieldSpec : fieldSpec -> string * option error.

(** [MakeTool] returns a tool exactly for a function of one argument and
    two results, the second an interface with [Error() string], whose
    argument type has a schema that the encoder accepts. The tool then has
    the given name and description, the encoded schema as parameters, and
    the handler for that function. *)
Theorem MakeTool_returns_iff f name desc tool :
  MakeTool json_Unmarshal json_MarshalIndent json_MarshalIndent_fieldSpec
    f name desc = Return tool
  <-> exists arg ret params b,
        toolSignature (TypeOf f) arg ret
        /\ readSpec arg = Return params
        /\ json_MarshalIndent_fieldSpec params = (b, None)
        /\ tool = {| Tool_Name := name; Tool_Description := desc;
                     Tool_Parameters := b;
                     Tool_Handler :=
                       Handler json_Unmarshal json_MarshalIndent f arg ret |}.
Proof.
  split.
  - unfold MakeTool. intros Hmk.
    destruct (TypeOf f) as [| | | | | | | | | | | | | | | | | | | |ins outs variadic| | | | |]
      eqn:Hty; try discriminate.
    destruct ins as [|arg [|]]; try discriminate.
    destruct outs as [|ret [|e [|]]]; try discriminate.
    destruct (reflect.Kind_eqb (reflect.kind e) reflect.Interface) eqn:Hkind;
      cbn in Hmk; [|discriminate].
    destruct (reflect.ImplementsError e) eqn:Himpl; cbn in Hmk; [|discriminate].
    destruct (readSpec arg) as [params|v] eqn:Hspec; cbn in Hmk; [|discriminate].
    destruct (json_MarshalIndent_fieldSpec params) as [b [err|]] eqn:Henc;
      [discriminate|].
    injection Hmk as <-. exists arg, ret, params, b.
    split; [|split; [exact Hspec | split; [exact Henc | reflexivity]]].
    exists e, variadic. split; [reflexivity|].
    split; [apply Kind_eqb_eq, Hkind | exact Himpl].
  - intros (arg & ret & params & b & Hsig & Hspec & Henc & ->).
    rewrite (MakeTool_signature _ _ _ _ _ _ _ _ Hsig), Hspec. cbn.
    rewrite Henc. reflexivity.
Qed.

(** The checks on the signature come first and each has its own panic:
    a value that is no function, a function that does not take one
    argument, one that does not return two results, one whose second
    result is no [error]. The argument type is not looked at before. *)
Theorem MakeTool_signature_panics f name desc :
  (reflect.kind (TypeOf f) <> reflect.Func ->
   MakeTool json_Unmarshal json_MarshalIndent json_MarshalIndent_fieldSpec
     f name desc = Panic (panicString "not a function"))
  /\ (forall ins outs variadic,
         TypeOf f = reflect.TFunc ins outs variadic ->
         length ins <> 1 ->
         MakeTool json_Unmarshal json_MarshalIndent json_MarshalIndent_fieldSpec
           f name desc = Panic (panicString "not a function of one argument"))
  /\ (forall arg outs variadic,
         TypeOf f = reflect.TFunc [arg] outs variadic ->
         length outs <> 2 ->
         MakeTool json_Unmarshal json_MarshalIndent json_MarshalIndent_fieldSpec
           f name desc = Panic (panicString "not a function of two results"))
  /\ (forall arg ret e variadic,
         TypeOf f = reflect.TFunc [arg] [ret; e] variadic ->
         reflect.kind e <> reflect.Interface \/ reflect.ImplementsError e = false ->
         MakeTool json_Unmarshal json_MarshalIndent json_MarshalIndent_fieldSpec
           f name desc = Panic (panicString "second result is not an error")).
Proof.
  unfold MakeTool. repeat split.
  - intros Hk. destruct (TypeOf f); try reflexivity. exfalso. apply Hk. reflexivity.
  - intros ins outs variadic -> Hlen.
    destruct ins as [|arg [|]]; try reflexivity. contradiction.
  - intros arg outs variadic -> Hlen.
    destruct outs as [|ret [|e [|]]]; try reflexivity. contradiction.
  - intros arg ret e variadic -> [Hk | Himpl].
    + destruct (reflect.Kind_eqb (reflect.kind e) reflect.Interface) eqn:Hkind;
        [apply Kind_eqb_eq in Hkind; contradiction | reflexivity].
    + rewrite Himpl.
      destruct (reflect.Kind_eqb (reflect.kind e) reflect.Interface); reflexivity.
Qed.

(** Decode, call, encode: when the input decodes, the wrapped function
    (called through reflection: for a function that is not variadic, the
    function applied to the decoded value) returns a value with a nil
    error and the encoder accepts the value, [Handler] returns the encoded
    value with a nil error. *)
Theorem Handler_success f arg ret input v r b :
  json_Unmarshal input arg = inl v ->
  reflectCall f arg v = Return (r, None) ->
  json_MarshalIndent ret r = (b, None) ->
  Handler json_Unmarshal json_MarshalIndent f arg ret input = Return (b, None).
Proof.
  intros Hdec Hcall Henc. unfold Handler. rewrite Hdec, Hcall. cbn.
  rewrite Henc. reflexivity.
Qed.

(** For a variadic function whose parameter type has a schema, the call
    through reflection panics on every value, before the function is
    entered: the decoded slice is taken as one element of the variadic
    parameter, to which it cannot be assigned. *)
Lemma reflectCall_variadic f elem params v :
  reflect.IsVariadic (TypeOf f) = true ->
  readSpec (reflect.TSlice elem) = Return params ->
  reflectCall f (reflect.TSlice elem) v
  = Panic (panicCannotUse (reflect.TSlice elem) elem).
Proof.
  intros Hv Hspec. unfold reflectCall. rewrite Hv.
  destruct elem; try reflexivity.
  destruct methods; [discriminate Hspec | reflexivity].
Qed.

(** The handler of a function whose argument type has a schema panics in
    two ways only. If the function is not variadic: when the function
    itself panics, and with its panic. If the function is variadic: on
    every input that decodes, in [reflect.Value.Call] and before the
    function is entered. A value that the encoder refuses does not make
    it panic: the test before [panic(jerr)] reads the named result [err],
    which is nil there. *)
Theorem Handler_panics_iff_call_panics f arg ret params input pv :
  readSpec arg = Return params ->
  (reflect.IsVariadic (TypeOf f) = true -> reflect.kind arg = reflect.Slice) ->
  Handler json_Unmarshal json_MarshalIndent f arg ret input = Panic pv
  <-> exists v,
        json_Unmarshal input arg = inl v
        /\ if reflect.IsVariadic (TypeOf f)
           then exists elem, arg = reflect.TSlice elem
                             /\ pv = panicCannotUse arg elem
           else Call f v = Panic pv.
Proof.
  intros Hspec Hslice.
  assert (Hcall : forall v,
             reflectCall f arg v
             = if reflect.IsVariadic (TypeOf f)
               then match arg with
                    | reflect.TSlice elem => Panic (panicCannotUse arg elem)
                    | _ => Call f v
                    end
               else Call f v).
  { intros v. destruct (reflect.IsVariadic (TypeOf f)) eqn:Hv.
    - specialize (Hslice eq_refl). destruct arg; try discriminate Hslice.
      apply (reflectCall_variadic _ _ _ _ Hv Hspec).
    - apply reflectCall_not_variadic, Hv. }
  unfold Handler. split.
  - intros Hrun. destruct (json_Unmarshal input arg) as [v|e]; [|discriminate].
    exists v. split; [reflexivity|]. rewrite Hcall in Hrun.
    destruct (reflect.IsVariadic (TypeOf f)) eqn:Hv.
    + specialize (Hslice eq_refl). destruct arg; try discriminate Hslice.
      cbn in Hrun. injection Hrun as <-. eexists. split; reflexivity.
    + destruct (Call f v) as [[r [e|]]|pv']; cbn in Hrun; try discriminate.
      * destruct (json_MarshalIndent ret r); discriminate.
      * congruence.
  - intros (v & -> & Hpanic). rewrite Hcall.
    destruct (reflect.IsVariadic (TypeOf f)).
    + destruct Hpanic as (elem & -> & ->). reflexivity.
    + rewrite Hpanic. reflexivity.
Qed.

End MoreToolFacts.

Lemma Handler_panics_iff_call_panics_witness :
  Handler listUnmarshal demoMarshalIndent joinAll
    (reflect.TSlice reflect.TString) reflect.TString "[]"
  = Panic (panicCannotUse (reflect.TSlice reflect.TString) reflect.TString).
Proof.
  apply (Handler_panics_iff_call_panics listUnmarshal demoMarshalIndent joinAll
           (reflect.TSlice reflect.TString) reflect.TString _ "[]" _
           (eq_refl : readSpec (reflect.TSlice reflect.TString) = Return _)
           (fun _ => eq_refl)).
  exists (VSlice []). split; [reflexivity|].
  exists reflect.TString. split; reflexivity.
Defined.

Lemma Handler_success_witness :
  Handler demoUnmarshal demoMarshalIndent primitive reflect.TInt reflect.TInt "42"
  = Return ("42", None).
Proof.
  exact (Handler_success demoUnmarshal demoMarshalIndent primitive
           reflect.TInt reflect.TInt "42" (VInt 42) (VInt 42) "42"
           eq_refl eq_refl eq_refl).
Defined.

(* ===================================================================== *)
(** ** The default client *)
(* ===================================================================== *)

(** Whatever the first call of [DefaultClient] returned, every later call
    returns the same client with a nil error and changes nothing. So a
    missing API key is reported once: the calls after it return the nil
    client with a nil error. *)
Theorem DefaultClient_reports_once w cl err w1 :
  DefaultClient w = (cl, err, w1) ->
  DefaultClient w1 = (cl, None, w1).
Proof.
  unfold DefaultClient. intros H.
  destruct (defaultClientOnce w) eqn:Honce.
  - injection H as <- _ <-. rewrite Honce. reflexivity.
  - destruct (String.eqb (OPENAI_API_KEY w) ""); injection H as <- _ <-; reflexivity.
Qed.

Lemma DefaultClient_reports_once_witness :
  fst (fst (DefaultClient bareWorld)) = None
  /\ snd (fst (DefaultClient bareWorld))
     = Some (errorString "OPENAI_API_KEY environment variable not set")
  /\ DefaultClient (snd (DefaultClient bareWorld))
     = (None, None, snd (DefaultClient bareWorld)).
Proof.
  split; [reflexivity|]. split; [reflexivity|].
  exact (DefaultClient_reports_once bareWorld _ _ _ eq_refl).
Defined.

(** A client given to [SetDefaultClient] is the one [DefaultClient]
    returns only once the first call of [DefaultClient] is over. Given
    before that call, it is replaced by a client made from the API key when
    the key is set, and returned together with the error when it is not. *)
Theorem SetDefaultClient_and_first_use w cl :
  (defaultClientOnce w = true ->
   DefaultClient (SetDefaultClient cl w) = (cl, None, SetDefaultClient cl w))
  /\ (defaultClientOnce w = false -> OPENAI_API_KEY w <> EmptyString ->
      fst (fst (DefaultClient (SetDefaultClient cl w)))
      = Some (openai.NewClient (OPENAI_API_KEY w))
      /\ defaultClient (snd (DefaultClient (SetDefaultClient cl w)))
         = Some (openai.NewClient (OPENAI_API_KEY w)))
  /\ (defaultClientOnce w = false -> OPENAI_API_KEY w = EmptyString ->
      fst (DefaultClient (SetDefaultClient cl w))
      = (cl, Some (errorString "OPENAI_API_KEY environment variable not set"))).
Proof.
  unfold DefaultClient, SetDefaultClient. cbn. repeat split.
  - intros ->. reflexivity.
  - rewrite H. destruct (String.eqb_spec (OPENAI_API_KEY w) ""); [contradiction|reflexivity].
  - rewrite H. destruct (String.eqb_spec (OPENAI_API_KEY w) ""); [contradiction|reflexivity].
  - intros -> ->. reflexivity.
Qed.

(* ===================================================================== *)
(** ** Embeddings *)
(* ===================================================================== *)

Section EmbeddingFacts.

Variable mulAdd : N -> N -> N -> N.

Lemma Dot_loop_in_range e other :
  forall i sum, i + length e <= length other ->
                Dot_loop mulAdd e i (take (i + length e) other) sum
                = Dot_loop mulAdd e i other sum
                /\ returns (Dot_loop mulAdd e i other sum).
Proof.
  induction e as [|x e IH]; intros i sum Hlen; cbn [Dot_loop].
  - split; [reflexivity | eexists; reflexivity].
  - cbn [length] in Hlen. rewrite lookup_take_lt by (cbn; lia).
    destruct (other !! i) as [y|] eqn:Hy.
    + replace (i + length (x :: e)) with (S i + length e) by (cbn; lia).
      apply IH. lia.
    + apply lookup_ge_None in Hy. lia.
Qed.

Lemma Dot_loop_out_of_range e other :
  forall i sum, i <= length other -> length other < i + length e ->
                Dot_loop mulAdd e i other sum
                = indexOutOfRange (length other) (length other).
Proof.
  induction e as [|x e IH]; intros i sum Hi Hlen; cbn [Dot_loop].
  - cbn in Hlen. lia.
  - cbn [length] in Hlen. destruct (other !! i) as [y|] eqn:Hy.
    + apply IH; [|lia]. apply lookup_lt_Some in Hy. lia.
    + apply lookup_ge_None in Hy. replace i with (length other) by lia.
      reflexivity.
Qed.

(** [Dot] returns when [other] is at least as long as [e], and then only
    the first [len(e)] components of [other] count; when [other] is
    shorter, [Dot] panics with the index just past the end of [other]. *)
Theorem Dot_bounds e other :
  (length e <= length other ->
   returns (Dot mulAdd e other)
   /\ Dot mulAdd e other = Dot mulAdd e (take (length e) other))
  /\ (length other < length e ->
      Dot mulAdd e other = indexOutOfRange (length other) (length other)).
Proof.
  unfold Dot. split.
  - intros Hlen. destruct (Dot_loop_in_range e other 0 0%N Hlen) as [Heq Hret].
    split; [exact Hret | symmetry; exact Heq].
  - intros Hlen. apply Dot_loop_out_of_range; lia.
Qed.

Variable CreateEmbeddings :
  option openai.Client -> openaiEmbeddings.EmbeddingRequest ->
  outcome (openaiEmbeddings.EmbeddingResponse + error).

(** What [Embed] returns with an error is the nil vector and the count
    zero. What it returns without an error is the first entry of the
    response's data and the prompt token count; a response without data
    makes it panic on the index. *)
Theorem Embed_results text w :
  match Embed CreateEmbeddings text w with
  | (Return (v, n, Some _), _) => v = [] /\ n = 0%Z
  | (Return (v, n, None), w') =>
      exists cl resp d rest,
        DefaultClient w = (cl, None, w')
        /\ CreateEmbeddings cl
             {| openaiEmbeddings.Input := [text];
                openaiEmbeddings.Model := openaiEmbeddings.AdaEmbeddingV2 |}
           = Return (inl resp)
        /\ openaiEmbeddings.Data resp = d :: rest
        /\ v = openaiEmbeddings.Embedding_ d
        /\ n = openaiEmbeddings.PromptTokens (openaiEmbeddings.Usage_ resp)
  | (Panic pv, w') =>
      exists cl,
        DefaultClient w = (cl, None, w')
        /\ (CreateEmbeddings cl
              {| openaiEmbeddings.Input := [text];
                 openaiEmbeddings.Model := openaiEmbeddings.AdaEmbeddingV2 |}
            = Panic pv
            \/ exists resp,
                CreateEmbeddings cl
                  {| openaiEmbeddings.Input := [text];
                     openaiEmbeddings.Model := openaiEmbeddings.AdaEmbeddingV2 |}
                = Return (inl resp)
                /\ openaiEmbeddings.Data resp = []
                /\ pv = panicString
                          "runtime error: index out of range [0] with length 0")
  end.
Proof.
  unfold Embed.
  destruct (DefaultClient w) as [[cl [err|]] w1]; [split; reflexivity|].
  destruct (CreateEmbeddings cl _) as [[resp|err]|pv] eqn:Hcall.
  - destruct (openaiEmbeddings.Data resp) as [|d rest] eqn:Hdata.
    + exists cl. split; [reflexivity|]. right. exists resp.
      split; [exact Hcall|]. split; [exact Hdata | reflexivity].
    + exists cl, resp, d, rest. split; [reflexivity|].
      split; [exact Hcall|]. split; [exact Hdata|]. split; reflexivity.
  - split; reflexivity.
  - exists cl. split; [reflexivity|]. left. exact Hcall.
Qed.

End EmbeddingFacts.

Example Dot_in_range :
  Dot natMulAdd [1; 2; 3]%N [4; 5; 6; 7]%N = Return 32%N.
Proof. reflexivity. Qed.

Example Dot_short_other :
  Dot natMulAdd [1; 2; 3]%N [4; 5]%N
  = Panic (panicString "runtime error: index out of range [2] with length 2").
Proof. reflexivity. Qed.

Example Embed_no_data :
  fst (Embed noData "hello" demoWorld)
  = Panic (panicString "runtime error: index out of range [0] with length 0").
Proof. reflexivity. Qed.

(* ===================================================================== *)
(** ** More on the completion loop *)
(* ===================================================================== *)

Lemma client_error c w cl e w1 :
  client c w = (cl, Some e, w1) ->
  Chat_c c = None
  /\ e = errorString "OPENAI_API_KEY environment variable not set".
Proof.
  unfold client, DefaultClient. intros H.
  destruct (Chat_c c); [discriminate|].
  destruct (defaultClientOnce w); [discriminate|].
  destruct (String.eqb (OPENAI_API_KEY w) ""); [|discriminate].
  injection H as _ <- _. split; reflexivity.
Qed.

Lemma client_world c w cl err w1 :
  client c w = (cl, err, w1) ->
  OPENAI_API_KEY w1 = OPENAI_API_KEY w
  /\ (Chat_c c <> None -> w1 = w /\ cl = Chat_c c).
Proof.
  unfold client, DefaultClient. intros H.
  destruct (Chat_c c) as [own|].
  - injection H as <- _ <-. split; [reflexivity|]. intros _. split; reflexivity.
  - split; [|intros Hne; contradiction].
    destruct (defaultClientOnce w); [injection H as _ _ <-; reflexivity|].
    destruct (String.eqb (OPENAI_API_KEY w) ""); injection H as _ _ <-; reflexivity.
Qed.

Lemma toolMessage_returns tools call :
  handlersReturn tools -> returns (toolMessage tools call).
Proof.
  intros Hall. unfold toolMessage.
  destruct (negb (String.eqb (openai.ToolCall_Type call) "function"));
    [eexists; reflexivity|].
  assert (Hfind : match findTool tools call with
                  | Some h => returns h
                  | None => True
                  end).
  { induction Hall as [|t tools Ht _ IH]; cbn; [exact I|].
    destruct (String.eqb (Tool_Name t) _); [apply Ht | exact IH]. }
  destruct (findTool tools call) as [h|]; [|eexists; reflexivity].
  destruct Hfind as [[out toolErr] ->]. eexists. reflexivity.
Qed.


Section MoreLoopFacts.

Variable api :
  option openai.Client -> list openai.ChatCompletionRequest ->
  openai.ChatCompletionRequest ->
  outcome (openai.ChatCompletionResponse + error).

(** A finish reason for which the [switch] has no case is taken as the end
    of the answer, like "stop" and "length": the empty reason (which is
    what a reason absent from the response decodes to) and any reason the
    package does not know. *)
Theorem Talk_unhandled_reason_succeeds fuel c w cl w1 resp choice others :
  client c w = (cl, None, w1) ->
  api cl (requests w1) (sends c) = Return (inl resp) ->
  openai.Choices resp = choice :: others ->
  handledReason (openai.FinishReason choice) = false ->
  Talk api (S fuel) c w
  = Some (Return (openai.Content (openai.Message choice), None),
          setDialogue c (Chat_Dialogue c ++ [openai.Message choice]),
          record w1 (sends c)).
Proof.
  intros Hcl Hapi Hch Hreason. unfold Talk, sends in *. cbn [Talk_loop].
  rewrite Hcl, Hapi, Hch. unfold handledReason in Hreason.
  apply orb_false_elim in Hreason as [Hreason Hnull].
  apply orb_false_elim in Hreason as [Hreason Hfilter].
  apply orb_false_elim in Hreason as [Hfun Htool].
  rewrite Hfun, Htool, Hfilter, Hnull. reflexivity.
Qed.

(** A call whose type is not "function" gets the message "error: unknown
    tool call type" with the type, tagged with the call's identifier. No
    handler runs for it, whatever tools there are and whatever name the
    call gives. *)
Theorem toolMessage_unknown_type tools call :
  openai.ToolCall_Type call <> "function" ->
  toolMessage tools call
  = Return (toolSaid ("error: unknown tool call type " ++ openai.ToolCall_Type call)
              call).
Proof.
  intros Hty. unfold toolMessage.
  destruct (String.eqb_spec (openai.ToolCall_Type call) "function");
    [contradiction | reflexivity].
Qed.

(** Of several tools with one name, the first in [Tools] takes the call:
    the tools after it make no difference. *)
Theorem toolMessage_first_of_name pre t post call :
  openai.ToolCall_Type call = "function" ->
  unregistered pre call ->
  Tool_Name t = openai.FunctionCall_Name (openai.ToolCall_Function call) ->
  toolMessage (pre ++ t :: post) call = toolMessage [t] call.
Proof.
  intros Hty Hpre Hname.
  rewrite (toolMessage_handler_result _ _ _ Hty (findTool_first _ _ _ _ Hpre Hname)).
  rewrite (toolMessage_handler_result [t] _ _ Hty
             (findTool_first [] t [] call (Forall_nil_2 _) Hname)).
  reflexivity.
Qed.


Lemma Talk_loop_settings fuel :
  forall tools c w o c' w',
    Talk_loop api fuel tools c w = Some (o, c', w') ->
    sameSettings c c' /\ OPENAI_API_KEY w' = OPENAI_API_KEY w.
Proof.
  induction fuel as [|fuel IH]; intros tools c w o c' w' Hrun; [discriminate|].
  cbn [Talk_loop] in Hrun.
  destruct (client c w) as [[cl err] w1] eqn:Hcl.
  apply client_world in Hcl as [Hkey _].
  repeat case_match; simplify_eq;
    try (split; [repeat split | exact Hkey]).
  apply IH in Hrun as [Hsame Hkey']. split; [exact Hsame | rewrite Hkey'; exact Hkey].
Qed.

(** [Talk] and [Exchange] change nothing of the chat but its Dialogue:
    model, tweaks, tools and the chat's own client are as before, whether
    the call returns a response, returns an error or panics. *)
Theorem Talk_and_Exchange_keep_settings :
  (forall fuel c w o c' w',
      Talk api fuel c w = Some (o, c', w') -> sameSettings c c')
  /\ (forall fuel c content w o c' w',
         Exchange api fuel c content w = Some (o, c', w') -> sameSettings c c').
Proof.
  split.
  - intros fuel c w o c' w' Hrun. eapply Talk_loop_settings, Hrun.
  - intros fuel c content w o c' w' Hrun. unfold Exchange in Hrun.
    destruct (String.eqb content ""); [injection Hrun as _ <- _; repeat split|].
    destruct (Talk api fuel (UserSaid c content) w)
      as [[[[[resp [err|]]|v] c1] w1]|] eqn:Htalk;
      try discriminate; injection Hrun as _ <- _;
      apply Talk_loop_settings in Htalk as [Hsame _]; exact Hsame.
Qed.

Lemma Talk_loop_requests_carry fuel :
  forall tools c w o c' w' d0 new0,
    Chat_Dialogue c = d0 ++ new0 ->
    Talk_loop api fuel tools c w = Some (o, c', w') ->
    exists sent,
      requests w' = requests w ++ sent
      /\ Forall (fun req =>
                   openai.Model req = model c
                   /\ openai.Temperature req = Tweaks_Temperature (Chat_Tweaks c)
                   /\ openai.TopP req = Tweaks_TopP (Chat_Tweaks c)
                   /\ openai.Tools req = tools
                   /\ exists new, openai.Messages req = d0 ++ new) sent.
Proof.
  induction fuel as [|fuel IH]; intros tools c w o c' w' d0 new0 Hd Hrun;
    [discriminate|].
  cbn [Talk_loop] in Hrun.
  destruct (client c w) as [[cl err] w1] eqn:Hcl.
  apply client_requests in Hcl.
  assert (Hone : Forall (fun req =>
                   openai.Model req = model c
                   /\ openai.Temperature req = Tweaks_Temperature (Chat_Tweaks c)
                   /\ openai.TopP req = Tweaks_TopP (Chat_Tweaks c)
                   /\ openai.Tools req = tools
                   /\ exists new, openai.Messages req = d0 ++ new)
                  [request tools c]).
  { constructor; [|constructor]. repeat split. exists new0. exact Hd. }
  destruct err as [err|].
  { injection Hrun as _ _ <-. exists []. rewrite app_nil_r.
    split; [exact Hcl | constructor]. }
  repeat case_match; simplify_eq;
    try (eexists; cbn; rewrite Hcl; split; [reflexivity | exact Hone]).
  match goal with
  | H : dispatch _ _ _ = _ |- _ => apply dispatch_extends in H as [msgs ->]
  end.
  eapply (IH _ _ _ _ _ _ d0) in Hrun as (sent & Hsent & Hall).
  - exists (request tools c :: sent). rewrite Hsent. cbn. rewrite Hcl, <- app_assoc.
    split; [reflexivity|]. constructor; [inversion Hone; assumption | exact Hall].
  - cbn. rewrite Hd, <- !app_assoc. reflexivity.
Qed.

(** Every request that a run of [Talk] sends carries the chat's model (the
    default one when none is set), its tweaks and its tools, and a
    Dialogue that begins with the Dialogue [Talk] was called on. The
    requests are added to those sent before, which stay. *)
Theorem Talk_requests_carry_the_chat fuel c w o c' w' :
  Talk api fuel c w = Some (o, c', w') ->
  exists sent,
    requests w' = requests w ++ sent
    /\ Forall (requestOf c (Chat_Dialogue c)) sent.
Proof.
  intros Hrun. unfold Talk in Hrun.
  eapply (Talk_loop_requests_carry _ _ _ _ _ _ _ (Chat_Dialogue c) []) in Hrun;
    [|symmetry; apply app_nil_r].
  destruct Hrun as (sent & Hsent & Hall). exists sent. split; [exact Hsent|].
  eapply Forall_impl; [exact Hall|]. intros req H. exact H.
Qed.


Lemma Talk_loop_error_kinds fuel :
  forall tools c w resp e c' w',
    Talk_loop api fuel tools c w = Some (Return (resp, Some e), c', w') ->
    resp = EmptyString
    /\ (e = errorString "OPENAI_API_KEY environment variable not set"
        \/ (exists cl earlier req, api cl earlier req = Return (inr e))
        \/ e ∈ talkErrors).
Proof.
  induction fuel as [|fuel IH]; intros tools c w resp e c' w' Hrun; [discriminate|].
  cbn [Talk_loop] in Hrun.
  destruct (client c w) as [[cl [err|]] w1] eqn:Hcl.
  { injection Hrun as <- <- _ _. apply client_error in Hcl as [_ ->].
    split; [reflexivity | left; reflexivity]. }
  destruct (api cl (requests w1) (request tools c)) as [[r|err]|v] eqn:Hapi;
    [| injection Hrun as <- <- _ _; split; [reflexivity|];
       right; left; exists cl, (requests w1), (request tools c); exact Hapi
     | discriminate].
  repeat case_match; simplify_eq;
    try (split; [reflexivity|]; right; right; unfold talkErrors;
         rewrite list_elem_of_In; cbn; tauto).
  eapply IH, Hrun.
Qed.

(** An error that [Talk] returns comes with the empty response, and is one
    of: the error of a missing API key; an error that the remote call
    returned; one of the five errors that [Talk] makes itself. In
    particular [Talk] never returns [ErrTokenLimit] unless the remote call
    does. *)
Theorem Talk_error_kinds fuel c w resp e c' w' :
  Talk api fuel c w = Some (Return (resp, Some e), c', w') ->
  resp = EmptyString
  /\ (e = errorString "OPENAI_API_KEY environment variable not set"
      \/ (exists cl earlier req, api cl earlier req = Return (inr e))
      \/ e ∈ talkErrors).
Proof. apply Talk_loop_error_kinds. Qed.

Lemma Talk_loop_response_is_last fuel :
  forall tools c w resp c' w',
    Talk_loop api fuel tools c w = Some (Return (resp, None), c', w') ->
    exists init msg,
      Chat_Dialogue c' = Chat_Dialogue c ++ init ++ [msg]
      /\ openai.Content msg = resp.
Proof.
  induction fuel as [|fuel IH]; intros tools c w resp c' w' Hrun; [discriminate|].
  cbn [Talk_loop] in Hrun.
  repeat case_match; simplify_eq.
  - match goal with
    | H : dispatch _ _ _ = _ |- _ => apply dispatch_extends in H as [msgs ->]
    end.
    apply IH in Hrun as (init & msg & Hd & Hc). cbn in Hd.
    match type of Hd with
    | _ = ((_ ++ [?m]) ++ _) ++ _ => exists ([m] ++ msgs ++ init), msg
    end.
    split; [|exact Hc]. rewrite Hd, <- !app_assoc. reflexivity.
  - eexists [], _. split; reflexivity.
Qed.

(** The response that [Exchange] returns is the content of the last
    message of the Dialogue it leaves; the user's message comes first of
    what was appended. *)
Theorem Exchange_response_is_last_message fuel c content w resp c' w' :
  Exchange api fuel c content w = Some (Return (resp, None), c', w') ->
  exists between msg,
    Chat_Dialogue c'
    = Chat_Dialogue c ++ say openai.ChatMessageRoleUser content :: between ++ [msg]
    /\ openai.Content msg = resp.
Proof.
  unfold Exchange. intros Hrun.
  destruct (String.eqb content ""); [discriminate|].
  destruct (Talk api fuel (UserSaid c content) w)
    as [[[[[resp' [err|]]|v] c1] w1]|] eqn:Htalk; try discriminate.
  injection Hrun as <- <- _.
  apply Talk_loop_response_is_last in Htalk as (init & msg & Hd & Hc).
  cbn in Hd. exists init, msg. split; [|exact Hc].
  rewrite Hd, <- app_assoc. reflexivity.
Qed.

Lemma Talk_loop_keeps_asking fuel :
  alwaysAsks api ->
  forall tools c w,
    handlersReturn (Chat_Tools c) ->
    snd (fst (client c w)) = None ->
    Talk_loop api fuel tools c w = None.
Proof.
  intros Hasks. induction fuel as [|fuel IH]; intros tools c w Hret Hcl;
    [reflexivity|].
  destruct (client c w) as [[cl err] w1] eqn:Hclient. cbn in Hcl. subst err.
  destruct (Hasks cl (requests w1) (request tools c))
    as (resp & choice & others & Hapi & Hch & Hreason & Hcalls).
  destruct (openai.ToolCalls (openai.Message choice)) as [|call calls] eqn:Hc;
    [contradiction|].
  rewrite (Talk_loop_tool_calls api _ _ _ _ _ _ _ _ _ _ _
             Hclient Hapi Hch Hreason Hc).
  destruct (all_return_messages (Chat_Tools c) (call :: calls)) as [msgs Hmsgs].
  { apply Forall_forall. intros call' _. apply toolMessage_returns, Hret. }
  rewrite (dispatch_returns _ _ _ Hmsgs). apply IH.
  - exact Hret.
  - rewrite (client_again _ _ _ _ _ _ Hclient). reflexivity.
Qed.

(** The loop has no bound of its own: against a remote API that answers
    every request with a request for tools, and with handlers that return,
    [Talk] neither returns nor panics, however long it runs. *)
Theorem Talk_never_ends_when_always_asked fuel c w :
  alwaysAsks api ->
  handlersReturn (Chat_Tools c) ->
  snd (fst (client c w)) = None ->
  Talk api fuel c w = None.
Proof. intros Hasks Hret Hcl. apply Talk_loop_keeps_asking; assumption. Qed.

(** A chat that has its own client never brings the default client into
    play: [Talk] leaves the package variables and the environment as they
    were, and only adds to the requests. *)
Theorem Talk_own_client_leaves_default fuel c w o c' w' :
  Chat_c c <> None ->
  Talk api fuel c w = Some (o, c', w') ->
  defaultClient w' = defaultClient w
  /\ defaultClientOnce w' = defaultClientOnce w
  /\ OPENAI_API_KEY w' = OPENAI_API_KEY w.
Proof.
  unfold Talk. generalize (map openaiTool (Chat_Tools c)). intros tools.
  revert c w. induction fuel as [|fuel IH]; intros c w Hown Hrun; [discriminate|].
  cbn [Talk_loop] in Hrun.
  destruct (client c w) as [[cl err] w1] eqn:Hcl.
  apply client_world in Hcl as [_ Hsame]. destruct (Hsame Hown) as [-> _].
  repeat case_match; simplify_eq; try (repeat split; reflexivity).
  apply IH in Hrun; [exact Hrun | exact Hown].
Qed.

End MoreLoopFacts.

(* ===================================================================== *)
(** ** The further theorems at work on the fixtures *)
(* ===================================================================== *)

Lemma Talk_unhandled_reason_succeeds_witness :
  exists c' w',
    Talk (scripted answerWithoutReason) 1 (demoChat []) demoWorld
    = Some (Return ("Aye.", None), c', w')
    /\ length (Chat_Dialogue c') = 2.
Proof.
  pose proof (Talk_unhandled_reason_succeeds (scripted answerWithoutReason)
                0 (demoChat []) demoWorld _ _ _ _ _
                eq_refl eq_refl eq_refl eq_refl) as Hrun.
  eexists _, _. split; [exact Hrun | reflexivity].
Defined.

Lemma toolMessage_unknown_type_witness :
  toolMessage [faulty] retrievalCall
  = Return (toolSaid "error: unknown tool call type retrieval" retrievalCall).
Proof.
  apply (toolMessage_unknown_type [faulty] retrievalCall). discriminate.
Defined.

Lemma toolMessage_first_of_name_witness :
  toolMessage [yes; no] (callOf "call_1" "oracle" "{}")
  = Return (toolSaid "yes" (callOf "call_1" "oracle" "{}")).
Proof.
  exact (eq_trans
           (toolMessage_first_of_name [] yes [no] (callOf "call_1" "oracle" "{}")
              eq_refl (Forall_nil_2 _) eq_refl)
           eq_refl).
Defined.


Lemma Talk_requests_carry_the_chat_witness :
  exists o c' w' sent,
    Talk (scripted askThenAnswer) 2 (demoChat []) demoWorld = Some (o, c', w')
    /\ requests w' = requests demoWorld ++ sent
    /\ length sent = 2
    /\ Forall (requestOf (demoChat []) (Chat_Dialogue (demoChat []))) sent.
Proof.
  eexists _, _, _.
  destruct (Talk_requests_carry_the_chat (scripted askThenAnswer) 2
              (demoChat []) demoWorld _ _ _ eq_refl) as (sent & Hsent & Hall).
  exists sent. split; [reflexivity|]. split; [exact Hsent|]. split; [|exact Hall].
  cbn in Hsent. rewrite <- Hsent. reflexivity.
Defined.


Lemma Talk_error_kinds_witness :
  exists c' w',
    Talk (scripted askThenFiltered) 2 (demoChat []) demoWorld
    = Some (Return (EmptyString, Some ErrContentFilter), c', w')
    /\ (ErrContentFilter = errorString "OPENAI_API_KEY environment variable not set"
        \/ (exists cl earlier req,
               scripted askThenFiltered cl earlier req
               = Return (inr ErrContentFilter))
        \/ ErrContentFilter ∈ talkErrors).
Proof.
  eexists _, _. split; [reflexivity|].
  exact (proj2 (Talk_error_kinds (scripted askThenFiltered) 2 (demoChat [])
                  demoWorld _ _ _ _ eq_refl)).
Defined.

Lemma Exchange_response_is_last_message_witness :
  exists c' w' between msg,
    Exchange (scripted askThenAnswer) 2 (demoChat []) "I swing my sword." demoWorld
    = Some (Return ("You miss.", None), c', w')
    /\ Chat_Dialogue c'
       = Chat_Dialogue (demoChat [])
         ++ say "user" "I swing my sword." :: between ++ [msg]
    /\ openai.Content msg = "You miss.".
Proof.
  eexists _, _.
  destruct (Exchange_response_is_last_message (scripted askThenAnswer) 2
              (demoChat []) "I swing my sword." demoWorld _ _ _ eq_refl)
    as (between & msg & Hd & Hc).
  exists between, msg. split; [reflexivity|]. split; [exact Hd | exact Hc].
Defined.

Lemma persistent_alwaysAsks : alwaysAsks persistent.
Proof.
  intros cl earlier req. eexists _, _, _.
  split; [reflexivity|]. split; [reflexivity|]. split; [reflexivity|]. discriminate.
Qed.

Lemma Talk_never_ends_when_always_asked_witness :
  Talk persistent 40 (demoChat [yes]) demoWorld = None.
Proof.
  apply (Talk_never_ends_when_always_asked persistent 40 (demoChat [yes]) demoWorld
           persistent_alwaysAsks).
  - constructor; [|constructor]. intros input. eexists. reflexivity.
  - reflexivity.
Defined.

Lemma Talk_own_client_leaves_default_witness :
  exists o c' w',
    Talk (scripted askThenAnswer) 2 ownChat bareWorld = Some (o, c', w')
    /\ defaultClient w' = None /\ defaultClientOnce w' = false.
Proof.
  eexists _, _, _. split; [reflexivity|].
  destruct (Talk_own_client_leaves_default (scripted askThenAnswer) 2
              ownChat bareWorld _ _ _ ltac:(discriminate) eq_refl)
    as (Hcl & Honce & _).
  split; [exact Hcl | exact Honce].
Defined.

(** Without a key and without a client of its own, the first [Exchange]
    fails with the error of the missing key and sends nothing; the second
    goes to the remote API with the nil client. *)
Example Exchange_twice_without_api_key :
  exists c1 w1 o c2 w2,
    Exchange (scripted askThenAnswer) 2 (demoChat []) "Hello." bareWorld
    = Some (Return (EmptyString,
                    Some (errorString "OPENAI_API_KEY environment variable not set")),
            c1, w1)
    /\ requests w1 = []
    /\ client c1 w1 = (None, None, w1)
    /\ Exchange (scripted askThenAnswer) 2 c1 "Hello." w1 = Some (o, c2, w2)
    /\ length (requests w2) = 2.
Proof.
  eexists _, _, _, _, _. split; [reflexivity|]. split; [reflexivity|].
  split; [reflexivity|]. split; reflexivity.
Qed.
